(** * CO2 accounting tool: matching engine and aggregator

    A shallow embedding of [logic.py] (the reference index, the
    three-tier description matcher and the per-line emissions calculator)
    and of the statistics computed by [analytics.py], together with the
    properties the specification states about them.

    Conventions.
    - Python [str] is [string]; a character is a code point below 256.
    - Python [float] is the kernel's binary64 type [float].
    - A Python [dict] is an association list in insertion order
      (iteration order is observable in the substring tier).
    - A Python exception is the [Raise] branch of [result].
    - The invoice rows live in a store of dict objects addressed by
      location, because [calculate_invoice_emissions] copies and then
      assigns into dict objects. *)

From Stdlib Require Import List String Ascii Bool Arith ZArith Lia.
From Stdlib Require Import Floats.
Import ListNotations.

Local Open Scope string_scope.
Local Open Scope list_scope.
Local Open Scope nat_scope.

(* ================================================================= *)
(** ** Exceptions and results *)

Inductive exn : Type :=
| KeyError (key : string)
| ValueError
| AttributeError
| TypeError.

Inductive result (A : Type) : Type :=
| Ok (a : A)
| Raise (e : exn).

Arguments Ok {A} a.
Arguments Raise {A} e.

Definition bind {A B : Type} (r : result A) (k : A -> result B) : result B :=
  match r with
  | Ok a => k a
  | Raise e => Raise e
  end.

Notation "x <- c ;; k" := (bind c (fun x => k))
  (at level 61, c at next level, right associativity).

(** [try: body except ValueError: handler] *)
Definition try_except_ValueError {A : Type} (body handler : result A) : result A :=
  match body with
  | Raise ValueError => handler
  | r => r
  end.

Definition raises {A : Type} (r : result A) : bool :=
  match r with
  | Ok _ => false
  | Raise _ => true
  end.

(* ================================================================= *)
(** ** Python built-ins used by the program *)

Module Py.

(** *** Characters and [str] methods *)

Definition ord (c : ascii) : nat := nat_of_ascii c.

(** [c.isspace()] on code points below 256. *)
Definition isspace (c : ascii) : bool :=
  let n := ord c in
  ((9 <=? n) && (n <=? 13)) || ((28 <=? n) && (n <=? 32))
  || (n =? 133) || (n =? 160).

(** [c.lower()] on code points below 256: A-Z and the Latin-1 capitals. *)
Definition lower_char (c : ascii) : ascii :=
  let n := ord c in
  if ((65 <=? n) && (n <=? 90))
     || ((192 <=? n) && (n <=? 222) && negb (n =? 215))
  then ascii_of_nat (n + 32)
  else c.

(** [s.lower()] *)
Fixpoint lower (s : string) : string :=
  match s with
  | EmptyString => EmptyString
  | String c s' => String (lower_char c) (lower s')
  end.

Fixpoint lstrip_with (sp : ascii -> bool) (s : string) : string :=
  match s with
  | EmptyString => EmptyString
  | String c s' => if sp c then lstrip_with sp s' else s
  end.

Fixpoint rstrip_with (sp : ascii -> bool) (s : string) : string :=
  match s with
  | EmptyString => EmptyString
  | String c s' =>
      match rstrip_with sp s' with
      | EmptyString => if sp c then EmptyString else String c EmptyString
      | r => String c r
      end
  end.

(** [s.strip()] *)
Definition strip (s : string) : string :=
  rstrip_with isspace (lstrip_with isspace s).

(** [s.split()]: the maximal runs of non-whitespace characters, in order. *)
Fixpoint split (s : string) : list string :=
  match s with
  | EmptyString => []
  | String c s' =>
      if isspace c then split s'
      else
        match s' with
        | EmptyString => [String c EmptyString]
        | String c' _ =>
            if isspace c' then String c EmptyString :: split s'
            else
              match split s' with
              | w :: ws => String c w :: ws
              | [] => [String c EmptyString]
              end
        end
  end.

(** [s.startswith(p)] *)
Fixpoint startswith (p s : string) : bool :=
  match p, s with
  | EmptyString, _ => true
  | String _ _, EmptyString => false
  | String a p', String b s' => Ascii.eqb a b && startswith p' s'
  end.

(** [sub in s]: [sub] occurs as a contiguous substring of [s]. *)
Fixpoint contains (sub s : string) : bool :=
  startswith sub s
  || match s with
     | EmptyString => false
     | String _ s' => contains sub s'
     end.

(** *** [float(x)] on text

    The accepted texts are those of CPython: optional surrounding
    whitespace, an optional sign, then [inf], [infinity] or [nan] in any
    letter case, or a decimal numeral (digits with an optional point and an
    optional exponent; single underscores between digits).  The value is the
    decimal rounded to the nearest binary64, ties to even. *)

Definition is_digit (c : ascii) : bool := (48 <=? ord c) && (ord c <=? 57).

Definition digit_value (c : ascii) : Z := Z.of_nat (ord c - 48).

(** the whitespace [float] strips: tab to carriage return, space, and the
    two Latin-1 spaces *)
Definition float_isspace (c : ascii) : bool :=
  let n := ord c in
  ((9 <=? n) && (n <=? 13)) || (n =? 32) || (n =? 133) || (n =? 160).

(** An underscore must stand between two digits; underscores are removed. *)
Fixpoint remove_underscores (prev : option ascii) (s : string) : option string :=
  match s with
  | EmptyString =>
      match prev with
      | Some "_"%char => None
      | _ => Some EmptyString
      end
  | String c s' =>
      if Ascii.eqb c "_" then
        match prev with
        | Some p => if is_digit p then remove_underscores (Some c) s' else None
        | None => None
        end
      else
        match prev with
        | Some "_"%char =>
            if is_digit c
            then option_map (String c) (remove_underscores (Some c) s')
            else None
        | _ => option_map (String c) (remove_underscores (Some c) s')
        end
  end.

(** leading digits of [s]: their value after [acc], how many, and the rest *)
Fixpoint take_digits (s : string) (acc : Z) (n : nat) : Z * nat * string :=
  match s with
  | EmptyString => (acc, n, s)
  | String c s' =>
      if is_digit c then take_digits s' (acc * 10 + digit_value c)%Z (S n)
      else (acc, n, s)
  end.

Definition take_sign (s : string) : bool * string :=
  match s with
  | String "-" r => (true, r)
  | String "+" r => (false, r)
  | _ => (false, s)
  end.

(** [(-1)^neg * m * 10^e], correctly rounded *)
Definition decimal_to_float (neg : bool) (m : Z) (e : Z) : float :=
  match m with
  | Zpos p =>
      match e with
      | Zneg q =>
          SF2Prim (SFdiv prec emax (S754_finite neg p 0)
                                   (S754_finite false (10 ^ q)%positive 0))
      | _ => SF2Prim (binary_round prec emax neg (p * Z.to_pos (10 ^ e))%positive 0)
      end
  | _ => if neg then (-0)%float else 0%float
  end.

Definition parse_numeral (neg : bool) (s : string) : option float :=
  let '(ip, n1, r1) := take_digits s 0%Z 0 in
  let '(m, n2, r2) :=
    match r1 with
    | String "." r => take_digits r ip 0
    | _ => (ip, 0, r1)
    end in
  if n1 + n2 =? 0 then None
  else
    match r2 with
    | EmptyString => Some (decimal_to_float neg m (- Z.of_nat n2))
    | String c r3 =>
        if Ascii.eqb c "e" || Ascii.eqb c "E" then
          let (eneg, r4) := take_sign r3 in
          let '(ev, n3, r5) := take_digits r4 0%Z 0 in
          match n3, r5 with
          | S _, EmptyString =>
              Some (decimal_to_float neg m
                      ((if eneg then - ev else ev) - Z.of_nat n2))
          | _, _ => None
          end
        else None
    end.

(** [float(s)] for a [str]; [None] is [ValueError]. *)
Definition float_of_str (s : string) : option float :=
  match remove_underscores None (rstrip_with float_isspace (lstrip_with float_isspace s)) with
  | None => None
  | Some t =>
      let (neg, body) := take_sign t in
      let l := lower body in
      if String.eqb l "inf" || String.eqb l "infinity"
      then Some (if neg then neg_infinity else infinity)
      else if String.eqb l "nan" then Some nan
      else parse_numeral neg body
  end.

(** *** [dict], in insertion order *)

Definition dict (V : Type) : Type := list (string * V).

(** [d.get(k)] *)
Fixpoint get {V : Type} (d : dict V) (k : string) : option V :=
  match d with
  | [] => None
  | (k', v) :: d' => if String.eqb k' k then Some v else get d' k
  end.

(** [d[k]] *)
Definition getitem {V : Type} (d : dict V) (k : string) : result V :=
  match get d k with
  | Some v => Ok v
  | None => Raise (KeyError k)
  end.

(** [d[k] = v]: an existing key keeps its position, a new key goes last. *)
Fixpoint setitem {V : Type} (d : dict V) (k : string) (v : V) : dict V :=
  match d with
  | [] => [(k, v)]
  | (k', v') :: d' =>
      if String.eqb k' k then (k', v) :: d' else (k', v') :: setitem d' k v
  end.

(** [list(d.keys())] *)
Definition keys {V : Type} (d : dict V) : list string := map fst d.

End Py.

(* ================================================================= *)
(** ** [difflib]: the part behind [get_close_matches]

    [SequenceMatcher] is used with [isjunk=None] and [autojunk=True]:
    when the second sequence has 200 elements or more, an element that
    makes up more than 1% of it (plus one) is "popular" and does not start
    matches, though a match may still be extended over it. *)

Module difflib.

Definition chars (s : string) : list ascii := list_ascii_of_string s.

Definition count (c : ascii) (b : list ascii) : nat :=
  count_occ ascii_dec b c.

(** [c in self.bpopular] after [__chain_b] on [b] *)
Definition popular (b : list ascii) (c : ascii) : bool :=
  (200 <=? List.length b) && (List.length b / 100 + 1 <? count c b).

Definition Match : Type := nat * nat * nat.

(** One pass of the inner loop of [find_longest_match] for [a[i] = x]:
    [bs] is [b[j:]], [prev] is the previous row [j2len] from [j] on,
    [diag] is [j2len.get(j-1, 0)].  Returns [newj2len] and the best match. *)
Fixpoint scan_row (pop : ascii -> bool) (x : ascii) (i j : nat)
    (bs : list ascii) (prev : list nat) (diag : nat) (best : Match)
    : list nat * Match :=
  match bs with
  | [] => ([], best)
  | y :: bs' =>
      let k := if Ascii.eqb x y && negb (pop y) then S diag else 0 in
      let best' :=
        let '(_, _, bestsize) := best in
        if bestsize <? k then (S i - k, S j - k, k) else best in
      let (row, best'') :=
        scan_row pop x i (S j) bs' (tl prev) (hd 0 prev) best' in
      (k :: row, best'')
  end.

(** the outer loop [for i in range(alo, ahi)], on [a[i:]] *)
Fixpoint scan_rows (pop : ascii -> bool) (i : nat) (a_rest b : list ascii)
    (j2len : list nat) (best : Match) : Match :=
  match a_rest with
  | [] => best
  | x :: a' =>
      let (newj2len, best') := scan_row pop x i 0 b j2len 0 best in
      scan_rows pop (S i) a' b newj2len best'
  end.

(** [while besti > alo and bestj > blo and a[besti-1] == b[bestj-1]] *)
Fixpoint extend_left (a b : list ascii) (besti bestj bestsize : nat) : Match :=
  match besti, bestj with
  | S i', S j' =>
      match nth_error a i', nth_error b j' with
      | Some x, Some y =>
          if Ascii.eqb x y then extend_left a b i' j' (S bestsize)
          else (besti, bestj, bestsize)
      | _, _ => (besti, bestj, bestsize)
      end
  | _, _ => (besti, bestj, bestsize)
  end.

(** length of the longest common prefix *)
Fixpoint common_prefix (a b : list ascii) : nat :=
  match a, b with
  | x :: a', y :: b' => if Ascii.eqb x y then S (common_prefix a' b') else 0
  | _, _ => 0
  end.

(** [find_longest_match(alo, ahi, blo, bhi)] on the slices [a[alo:ahi]] and
    [b[blo:bhi]], with positions relative to the slices. *)
Definition find_longest_match (pop : ascii -> bool) (a b : list ascii) : Match :=
  let '(besti, bestj, bestsize) := scan_rows pop 0 a b [] (0, 0, 0) in
  let '(besti, bestj, bestsize) := extend_left a b besti bestj bestsize in
  let more := common_prefix (skipn (besti + bestsize) a) (skipn (bestj + bestsize) b) in
  (besti, bestj, bestsize + more).

(** the sum of the sizes of the blocks [get_matching_blocks] collects; each
    block splits the slice of [a] into two strictly shorter ones, so
    [fuel = len(a)] is enough *)
Fixpoint matching_size (fuel : nat) (pop : ascii -> bool) (a b : list ascii) : nat :=
  match fuel with
  | 0 => 0
  | S fuel' =>
      let '(i, j, k) := find_longest_match pop a b in
      if k =? 0 then 0
      else
        k
        + (if (0 <? i) && (0 <? j)
           then matching_size fuel' pop (firstn i a) (firstn j b) else 0)
        + (if (i + k <? List.length a) && (j + k <? List.length b)
           then matching_size fuel' pop (skipn (i + k) a) (skipn (j + k) b) else 0)
  end.

Definition float_of_nat (n : nat) : float := of_uint63 (Uint63.of_Z (Z.of_nat n)).

(** [_calculate_ratio(matches, length)] *)
Definition calculate_ratio (matches total : nat) : float :=
  if total =? 0 then 1%float
  else (2 * float_of_nat matches / float_of_nat total)%float.

(** [SequenceMatcher(None, a, b).ratio()] *)
Definition ratio (a b : string) : float :=
  let a := chars a in
  let b := chars b in
  calculate_ratio (matching_size (List.length a) (popular b) a b) (List.length a + List.length b).

(** the loop of [quick_ratio]: [avail] starts as the element counts of [b] *)
Fixpoint quick_matches (a : list ascii) (avail : ascii -> Z) : nat :=
  match a with
  | [] => 0
  | elt :: a' =>
      let numb := avail elt in
      (if (0 <? numb)%Z then 1 else 0)
      + quick_matches a' (fun c => if Ascii.eqb c elt then (numb - 1)%Z else avail c)
  end.

Definition quick_ratio (a b : string) : float :=
  let a := chars a in
  let b := chars b in
  calculate_ratio (quick_matches a (fun c => Z.of_nat (count c b))) (List.length a + List.length b).

Definition real_quick_ratio (a b : string) : float :=
  let la := String.length a in
  let lb := String.length b in
  calculate_ratio (Nat.min la lb) (la + lb).

(** the test of [get_close_matches] on a possibility [x]; the two quick
    ratios are documented upper bounds of [ratio] *)
Definition close_enough (word : string) (cutoff : float) (x : string) : bool :=
  (cutoff <=? real_quick_ratio x word)%float
  && (cutoff <=? quick_ratio x word)%float
  && (cutoff <=? ratio x word)%float.

(** [p > q] on [(score, text)] tuples *)
Definition tuple_gt (p q : float * string) : bool :=
  if (fst p =? fst q)%float then
    match String.compare (snd p) (snd q) with
    | Gt => true
    | _ => false
    end
  else (fst q <? fst p)%float.

(** [max(result)]: the first maximal element *)
Fixpoint max_from (best : float * string) (rest : list (float * string))
    : float * string :=
  match rest with
  | [] => best
  | p :: rest' => max_from (if tuple_gt p best then p else best) rest'
  end.

(** [result] of [get_close_matches] before [_nlargest] *)
Fixpoint scored (word : string) (cutoff : float) (possibilities : list string)
    : list (float * string) :=
  match possibilities with
  | [] => []
  | x :: rest =>
      if close_enough word cutoff x
      then (ratio x word, x) :: scored word cutoff rest
      else scored word cutoff rest
  end.

(** [get_close_matches(word, possibilities, n=1, cutoff=cutoff)] *)
Definition get_close_matches (word : string) (possibilities : list string)
    (cutoff : float) : list string :=
  match scored word cutoff possibilities with
  | [] => []
  | p :: rest => [snd (max_from p rest)]
  end.

End difflib.

(* ================================================================= *)
(** ** Values, rows and the store *)

(** The values a row holds: CSV text, and the floats the calculator adds. *)
Inductive pyval : Type :=
| VStr (s : string)
| VFloat (f : float).

Definition row : Type := Py.dict pyval.

(** [float(v)] *)
Definition py_float (v : pyval) : result float :=
  match v with
  | VStr s =>
      match Py.float_of_str s with
      | Some f => Ok f
      | None => Raise ValueError
      end
  | VFloat f => Ok f
  end.

(** [v.lower().strip()]; a float has no such methods *)
Definition lower_strip (v : pyval) : result string :=
  match v with
  | VStr s => Ok (Py.strip (Py.lower s))
  | VFloat _ => Raise AttributeError
  end.

(** Dict objects are addressed by location; location [l] is the [l]-th
    object allocated. *)
Definition loc : Type := nat.
Definition heap : Type := list row.

Definition deref (h : heap) (l : loc) : row := nth l h [].

Definition alloc (h : heap) (r : row) : loc * heap := (List.length h, h ++ [r]).

Fixpoint store (h : heap) (l : loc) (r : row) : heap :=
  match h, l with
  | [], _ => []
  | _ :: h', 0 => r :: h'
  | x :: h', S l' => x :: store h' l' r
  end.

(** [d.copy()]: a new object with the same items *)
Definition dict_copy (h : heap) (l : loc) : loc * heap := alloc h (deref h l).

(** [d[k] = v] on the object at [l] *)
Definition dict_setitem (h : heap) (l : loc) (k : string) (v : pyval) : heap :=
  store h l (Py.setitem (deref h l) k v).

(* ================================================================= *)
(** ** logic.py *)

(** the literal [0.7]: the binary64 value nearest to 7/10 *)
Definition fuzzy_cutoff : float := 0x1.6666666666666p-1%float.

(** The body of the loop that builds [factor_map] (lines 29-37). *)
Definition add_entry (factor_map : Py.dict float) (entry : row)
    : result (Py.dict float) :=
  try_except_ValueError
    (c <- Py.getitem entry "category" ;;
     key <- lower_strip c ;;
     f <- Py.getitem entry "factor_kg_co2_per_unit" ;;
     val <- py_float f ;;
     Ok (Py.setitem factor_map key val))
    (Ok factor_map).

Fixpoint build_factor_map (factors_db : list row) (factor_map : Py.dict float)
    : result (Py.dict float) :=
  match factors_db with
  | [] => Ok factor_map
  | entry :: rest =>
      factor_map' <- add_entry factor_map entry ;;
      build_factor_map rest factor_map'
  end.

(** Step 2, lines 44-46.  [Some r]: the function leaves with [r];
    [None]: the loop ran to its end. *)
Fixpoint keyword_match (known_categories : list string)
    (factor_map : Py.dict float) (clean_desc : string) : option (result float) :=
  match known_categories with
  | [] => None
  | category :: rest =>
      if Py.contains category clean_desc
      then Some (Py.getitem factor_map category)
      else keyword_match rest factor_map clean_desc
  end.

(** Step 3, lines 53-59; [close_matches word known_categories] stands for
    the call of [difflib.get_close_matches]. *)
Fixpoint fuzzy_match (close_matches : string -> list string -> list string)
    (description_words known_categories : list string)
    (factor_map : Py.dict float) : option (result float) :=
  match description_words with
  | [] => None
  | word :: rest =>
      match close_matches word known_categories with
      | best_match :: _ => Some (Py.getitem factor_map best_match)
      | [] => fuzzy_match close_matches rest known_categories factor_map
      end
  end.

Definition get_emission_factor_with
    (close_matches : string -> list string -> list string)
    (item_description : pyval) (factors_db : list row) : result float :=
  clean_desc <- lower_strip item_description ;;
  factor_map <- build_factor_map factors_db [] ;;
  let known_categories := Py.keys factor_map in
  match keyword_match known_categories factor_map clean_desc with
  | Some r => r
  | None =>
      match fuzzy_match close_matches (Py.split clean_desc)
              known_categories factor_map with
      | Some r => r
      | None => Ok 0%float
      end
  end.

Definition close_matches_07 (word : string) (possibilities : list string)
    : list string :=
  difflib.get_close_matches word possibilities fuzzy_cutoff.

Definition get_emission_factor (item_description : pyval)
    (factors_db : list row) : result float :=
  get_emission_factor_with close_matches_07 item_description factors_db.

(** [row.get('item_description', 'Unknown')] *)
Definition description_of (r : row) : pyval :=
  match Py.get r "item_description" with
  | Some v => v
  | None => VStr "Unknown"
  end.

(** lines 73-76; the default [1] of [row.get] is an [int] and [float(1)]
    is [1.0] *)
Definition quantity_of (r : row) : result float :=
  try_except_ValueError
    (match Py.get r "quantity" with
     | Some v => py_float v
     | None => Ok 1%float
     end)
    (Ok 1%float).

(** One iteration of the loop of [calculate_invoice_emissions]: the new
    row's location and the store after it. *)
Definition process_row (factors_db : list row) (row : loc) (h : heap)
    : result loc * heap :=
  let description := description_of (deref h row) in
  match quantity_of (deref h row) with
  | Raise e => (Raise e, h)
  | Ok qty =>
      match get_emission_factor description factors_db with
      | Raise e => (Raise e, h)
      | Ok factor =>
          let total_co2 := (qty * factor)%float in
          let (new_row, h1) := dict_copy h row in
          let h2 := dict_setitem h1 new_row "matched_factor" (VFloat factor) in
          let h3 := dict_setitem h2 new_row "total_line_co2" (VFloat total_co2) in
          (Ok new_row, h3)
      end
  end.

Fixpoint process_rows (factors_db : list row) (invoice_data : list loc)
    (processed_invoices : list loc) (h : heap) : result (list loc) * heap :=
  match invoice_data with
  | [] => (Ok processed_invoices, h)
  | row :: rest =>
      match process_row factors_db row h with
      | (Raise e, h') => (Raise e, h')
      | (Ok new_row, h') =>
          process_rows factors_db rest (processed_invoices ++ [new_row]) h'
      end
  end.

Definition calculate_invoice_emissions (invoice_data : list loc)
    (factors_db : list row) (h : heap) : result (list loc) * heap :=
  process_rows factors_db invoice_data [] h.

(* ================================================================= *)
(** ** analytics.py: the statistics of [generate_text_report]

    The function prints; what is modelled is the values it prints from. *)

Record report : Type := {
  total_co2 : float;
  highest_item : option pyval;
  highest_val : float;
  unmatched_count : nat
}.

(** [total_co2 += co2] and [co2 > highest_val] need a number *)
Definition as_number (v : pyval) : result float :=
  match v with
  | VFloat f => Ok f
  | VStr _ => Raise TypeError
  end.

(** the body of the loop, lines 16-23, on (total_co2, highest_item, highest_val) *)
Definition report_step (st : float * option pyval * float) (r : row)
    : result (float * option pyval * float) :=
  let '(total, item, val) := st in
  v <- Py.getitem r "total_line_co2" ;;
  co2 <- as_number v ;;
  let total := (total + co2)%float in
  if (val <? co2)%float then
    d <- Py.getitem r "item_description" ;;
    Ok (total, Some d, co2)
  else Ok (total, item, val).

Fixpoint report_loop (processed_data : list row)
    (st : float * option pyval * float) : result (float * option pyval * float) :=
  match processed_data with
  | [] => Ok st
  | r :: rest => st' <- report_step st r ;; report_loop rest st'
  end.

(** [row['matched_factor'] == 0] *)
Definition is_unmatched (r : row) : result bool :=
  v <- Py.getitem r "matched_factor" ;;
  Ok match v with
     | VFloat f => (f =? 0)%float
     | VStr _ => false
     end.

(** [sum(1 for row in processed_data if row['matched_factor'] == 0)] *)
Fixpoint count_unmatched (processed_data : list row) : result nat :=
  match processed_data with
  | [] => Ok 0
  | r :: rest =>
      b <- is_unmatched r ;;
      n <- count_unmatched rest ;;
      Ok ((if b then 1 else 0) + n)
  end.

Definition generate_text_report (processed_data : list row) : result report :=
  st <- report_loop processed_data (0%float, None, (-1)%float) ;;
  let '(total, item, val) := st in
  n <- count_unmatched processed_data ;;
  Ok {| total_co2 := total; highest_item := item;
        highest_val := val; unmatched_count := n |}.

(* ================================================================= *)
(** ** Vocabulary of the specification *)

(** [sub] occurs in [s] as a contiguous substring *)
Definition is_substring (sub s : string) : Prop :=
  exists pre post : string, s = (pre ++ sub ++ post)%string.

(** every character of [s] is whitespace *)
Fixpoint all_space (s : string) : bool :=
  match s with
  | EmptyString => true
  | String c s' => Py.isspace c && all_space s'
  end.

(** An enriched line carries a description and the two derived numbers. *)
Definition enriched (r : row) : bool :=
  match Py.get r "item_description",
        Py.get r "matched_factor",
        Py.get r "total_line_co2" with
  | Some _, Some (VFloat _), Some (VFloat _) => true
  | _, _, _ => false
  end.

Definition line_co2 (r : row) : float :=
  match Py.get r "total_line_co2" with
  | Some (VFloat c) => c
  | _ => 0%float
  end.

Definition line_factor (r : row) : float :=
  match Py.get r "matched_factor" with
  | Some (VFloat f) => f
  | _ => 0%float
  end.

(** the sum of [total_line_co2] over the lines, in input order from [0.0] *)
Definition sum_co2 (lines : list row) : float :=
  fold_left (fun acc r => (acc + line_co2 r)%float) lines 0%float.

(** the lines whose [matched_factor] is [0.0] *)
Definition unmatched (lines : list row) : list row :=
  filter (fun r => (line_factor r =? 0)%float) lines.

(** [item], [val] are the highest emitter of the lines [seen]: no line yet
    above the floor [-1.0], or the earliest line that attains the maximum. *)
Definition is_peak (seen : list row) (item : option pyval) (val : float) : Prop :=
  match item with
  | None =>
      val = (-1)%float
      /\ forall x, In x seen -> (-1 <? line_co2 x)%float = false
  | Some d =>
      exists pre r post,
        seen = pre ++ r :: post
        /\ Py.get r "item_description" = Some d
        /\ val = line_co2 r
        /\ (-1 <? line_co2 r)%float = true
        /\ (forall x, In x pre -> (line_co2 r <=? line_co2 x)%float = false)
        /\ (forall x, In x post -> (line_co2 r <? line_co2 x)%float = false)
  end.

(** Three lines, the last two tied at the maximum. *)
Definition demo_lines : list row :=
  [ [("item_description", VStr "A"); ("matched_factor", VFloat 0);
     ("total_line_co2", VFloat 0)];
    [("item_description", VStr "B"); ("matched_factor", VFloat 5);
     ("total_line_co2", VFloat 10)];
    [("item_description", VStr "C"); ("matched_factor", VFloat 2);
     ("total_line_co2", VFloat 10)] ].

(** A returned item: quantity [-2] at factor [250.0]. *)
Definition demo_return : list row :=
  [ [("item_description", VStr "Laptop"); ("quantity", VStr "-2");
     ("matched_factor", VFloat 250); ("total_line_co2", VFloat (-500))] ].

(** A factor record that carries both fields, the category as text. *)
Definition well_formed_entry (e : row) : bool :=
  match Py.get e "category", Py.get e "factor_kg_co2_per_unit" with
  | Some (VStr _), Some _ => true
  | _, _ => false
  end.

(** the record's category, lowercased and stripped *)
Definition entry_key (e : row) : string :=
  match Py.get e "category" with
  | Some (VStr s) => Py.strip (Py.lower s)
  | _ => EmptyString
  end.

(** the record's factor, when it parses *)
Definition entry_factor (e : row) : option float :=
  match Py.get e "factor_kg_co2_per_unit" with
  | Some v =>
      match py_float v with
      | Ok f => Some f
      | Raise _ => None
      end
  | None => None
  end.

(** Last write wins: the factor of the latest record in input order whose
    normalized category is [k] and whose factor parses. *)
Fixpoint last_write (factors_db : list row) (k : string) : option float :=
  match factors_db with
  | [] => None
  | e :: rest =>
      match last_write rest k with
      | Some f => Some f
      | None => if String.eqb (entry_key e) k then entry_factor e else None
      end
  end.

(** A reference table with untidy categories, a factor that does not parse
    and a repeated category. *)
Definition demo_db : list row :=
  [ [("category", VStr " Laptop "); ("factor_kg_co2_per_unit", VStr "250.0")];
    [("category", VStr "coffee"); ("factor_kg_co2_per_unit", VStr "n/a")];
    [("category", VStr "COFFEE"); ("factor_kg_co2_per_unit", VStr "4.0")];
    [("category", VStr "paper"); ("factor_kg_co2_per_unit", VStr "1.5")];
    [("category", VStr "coffee"); ("factor_kg_co2_per_unit", VStr "5.0")] ].

(** The sentence "whatever the reference table, a blank description gets
    the no-match sentinel". *)
Definition blank_is_unmatched (factors_db : list row) : Prop :=
  forall desc, all_space desc = true ->
    get_emission_factor (VStr desc) factors_db = Ok 0%float.

(** A reference row whose category cell is empty, as in the CSV line [,5.0]. *)
Definition blank_category_db : list row :=
  [ [("category", VStr ""); ("factor_kg_co2_per_unit", VStr "5.0")] ].

(** the index built from [demo_db] *)
Definition demo_index : Py.dict float :=
  [("laptop", 250%float); ("coffee", 5%float); ("paper", 1.5%float)].

(** a table with a single ten-letter category *)
Definition letters_db : list row :=
  [ [("category", VStr "abcdefghij"); ("factor_kg_co2_per_unit", VStr "3")] ].

Definition is_text (v : pyval) : bool :=
  match v with
  | VStr _ => true
  | VFloat _ => false
  end.

(** the two fields the calculator writes *)
Definition derived_field (k : string) : bool :=
  String.eqb k "matched_factor" || String.eqb k "total_line_co2".

(** the emitted record for a line [r] with its factor and quantity *)
Definition enrich (r : row) (factor qty : float) : row :=
  Py.setitem (Py.setitem r "matched_factor" (VFloat factor))
             "total_line_co2" (VFloat (qty * factor)%float).

(** what the calculator computes from one line *)
Definition enrich_line (factors_db : list row) (r : row) : result row :=
  qty <- quantity_of r ;;
  factor <- get_emission_factor (description_of r) factors_db ;;
  Ok (enrich r factor qty).

(** the records emitted for the lines at [invoice_data] in the store [h],
    in order, up to the first line that raises *)
Fixpoint enrich_all (factors_db : list row) (h : heap) (invoice_data : list loc)
    : list row * option exn :=
  match invoice_data with
  | [] => ([], None)
  | l :: rest =>
      match enrich_line factors_db (deref h l) with
      | Raise e => ([], Some e)
      | Ok r =>
          let (rs, e) := enrich_all factors_db h rest in
          (r :: rs, e)
      end
  end.

(** The sentence "the emitted record holds every original field with its
    original value", for the lines at [invoice_data] in the store [h]. *)
Definition emits_every_original_field (invoice_data : list loc)
    (factors_db : list row) (h : heap) : Prop :=
  forall out h',
    calculate_invoice_emissions invoice_data factors_db h = (Ok out, h') ->
    forall i l l' k v,
      nth_error invoice_data i = Some l -> nth_error out i = Some l' ->
      Py.get (deref h l) k = Some v -> Py.get (deref h' l') k = Some v.

(** An invoice of three lines: a plain one, one without description whose
    quantity is not a number, and one with a misspelt word. *)
Definition demo_invoice : heap :=
  [ [("item_description", VStr "Laptop"); ("quantity", VStr "2")];
    [("quantity", VStr "two"); ("supplier", VStr "ACME")];
    [("item_description", VStr "coffe latte"); ("quantity", VStr "3")] ].

(** An invoice line that already has a column named [matched_factor]. *)
Definition clash_invoice : heap :=
  [ [("item_description", VStr "Laptop"); ("matched_factor", VStr "n/a")] ].

(** A reference row that lacks its factor cell, as the loader returns for a
    short CSV line. *)
Definition short_row_db : list row :=
  [ [("category", VStr "laptop")] ].

(** An invoice line whose quantity cell reads [inf]. *)
Definition infinite_quantity_invoice : heap :=
  [ [("item_description", VStr "Laptop"); ("quantity", VStr "inf")] ].

(** where a match ends in the first sequence *)
Definition match_end (m : difflib.Match) : nat :=
  let '(besti, _, bestsize) := m in besti + bestsize.

(** the exception a record raises that lacks a field (or whose category is
    not text) *)
Definition entry_error (e : row) : exn :=
  match Py.get e "category" with
  | None => KeyError "category"
  | Some (VFloat _) => AttributeError
  | Some (VStr _) => KeyError "factor_kg_co2_per_unit"
  end.

Definition factor_parses (e : row) : bool :=
  match entry_factor e with
  | Some _ => true
  | None => false
  end.

(** the normalized categories of the records whose factor parses, in input
    order *)
Definition parsed_keys (factors_db : list row) : list string :=
  map entry_key (filter factor_parses factors_db).

(** [ks] without the keys in [seen] and without repetitions, each key at
    its first occurrence *)
Fixpoint first_occurrences (seen ks : list string) : list string :=
  match ks with
  | [] => []
  | k :: rest =>
      if existsb (String.eqb k) seen then first_occurrences seen rest
      else k :: first_occurrences (seen ++ [k]) rest
  end.

(** main.py, lines 39-42: the report over the records the calculator
    returns *)
Definition calculate_and_report (invoice_data : list loc)
    (factors_db : list row) (h : heap) : result report :=
  match calculate_invoice_emissions invoice_data factors_db h with
  | (Ok final_data, h') => generate_text_report (map (deref h') final_data)
  | (Raise e, _) => Raise e
  end.

Definition has_text_description (r : row) : bool :=
  match Py.get r "item_description" with
  | Some (VStr _) => true
  | _ => false
  end.

(** neither infinite nor [nan] *)
Definition finite (x : float) : bool :=
  match Prim2SF x with
  | S754_zero _ | S754_finite _ _ _ => true
  | _ => false
  end.

Definition finite_quantity (r : row) : bool :=
  match quantity_of r with
  | Ok q => finite q
  | Raise _ => false
  end.

(** [+0.0] or [-0.0] *)
Definition is_zero (x : float) : bool :=
  match Prim2SF x with
  | S754_zero _ => true
  | _ => false
  end.

(* ================================================================= *)
(** ** data_loader.py

    What the file system and [csv.reader] hand to [load_csv_data] is taken
    as given: there is no file at the path; or the file cannot be opened,
    decoded or parsed; or it parses into records, each a list of cells (a
    blank line is the record [[]]). *)

Inductive csv_file : Type :=
| NoFile
| Unreadable
| Records (records : list (list string)).

(** The dict [csv.DictReader] yields for a record: the fields ([None] is the
    [restval] of a short record) and, under the key [None], the cells a long
    record has beyond the header. *)
Record reader_row : Type := {
  fields : Py.dict (option string);
  extra : option (list string)
}.

(** [dict(zip(fieldnames, row))] *)
Fixpoint zip_fields (fieldnames row : list string) (d : Py.dict (option string))
    : Py.dict (option string) :=
  match fieldnames, row with
  | key :: fieldnames', v :: row' =>
      zip_fields fieldnames' row' (Py.setitem d key (Some v))
  | _, _ => d
  end.

(** [DictReader.__next__] on a record that is not blank *)
Definition DictReader_next (fieldnames row : list string) : reader_row :=
  let d := zip_fields fieldnames row [] in
  let lf := List.length fieldnames in
  let lr := List.length row in
  if lf <? lr then {| fields := d; extra := Some (skipn lf row) |}
  else {| fields := fold_left (fun d key => Py.setitem d key None)
                              (skipn lr fieldnames) d;
          extra := None |}.

(** the items of [{k: v.strip() for k, v in row.items() if v is not None}]
    that come from the fields *)
Fixpoint strip_fields (items : list (string * option string)) (clean_row : row)
    : row :=
  match items with
  | [] => clean_row
  | (k, Some v) :: rest =>
      strip_fields rest (Py.setitem clean_row k (VStr (Py.strip v)))
  | (k, None) :: rest => strip_fields rest clean_row
  end.

(** line 36: the extra cells of a long record are a list, which has no
    [strip] *)
Definition clean_row (r : reader_row) : result row :=
  let clean := strip_fields (fields r) [] in
  match extra r with
  | Some _ => Raise AttributeError
  | None => Ok clean
  end.

(** the loop of lines 33-37; [DictReader] passes over blank records *)
Fixpoint read_records (fieldnames : list string) (records : list (list string))
    (data : list row) : result (list row) :=
  match records with
  | [] => Ok data
  | [] :: rest => read_records fieldnames rest data
  | record :: rest =>
      r <- clean_row (DictReader_next fieldnames record) ;;
      read_records fieldnames rest (data ++ [r])
  end.

(** the body of the [try], lines 26-37: [reader.fieldnames] is the first
    record, [None] when there is none *)
Definition load_body (records : list (list string)) : result (list row) :=
  match records with
  | [] => Raise ValueError
  | [] :: _ => Raise ValueError
  | fieldnames :: rest => read_records fieldnames rest []
  end.

Inductive loaded : Type :=
| FileNotFoundError
| Returned (data : list row).

Definition load_csv_data (f : csv_file) : loaded :=
  match f with
  | NoFile => FileNotFoundError
  | Unreadable => Returned []
  | Records records =>
      match load_body records with
      | Ok data => Returned data
      | Raise _ => Returned []
      end
  end.

(** the row the loader makes of a record under a header: the cells stripped,
    under the header's names, as far as the record goes *)
Definition row_of_record (fieldnames record : list string) : row :=
  combine fieldnames (map (fun v => VStr (Py.strip v)) record).

Definition not_blank (record : list string) : bool :=
  match record with
  | [] => false
  | _ => true
  end.

(** the items that [strip_fields] keeps *)
Definition present_items (items : list (string * option string)) : row :=
  flat_map (fun item =>
              match snd item with
              | Some v => [(fst item, VStr (Py.strip v))]
              | None => []
              end) items.

(** a file of three records under the header [category, factor] *)
Definition demo_factors_file : csv_file :=
  Records [ ["category"; "factor_kg_co2_per_unit"];
            [" Laptop "; "250.0"];
            [];
            ["coffee"; " 5.0"] ].

(* ================================================================= *)
(** ** analytics.py: [export_results]

    The file is the sequence of records handed to the csv writer, the
    header first; how a record is spelled in text is left to [csv].  The
    file system either refuses the file when it is opened or takes every
    write. *)

Definition table : Type := list (list pyval).

(** [DictWriter._dict_to_list], with [extrasaction='raise'] and
    [restval=''] *)
Definition dict_to_list (fieldnames : list string) (rowdict : row)
    : result (list pyval) :=
  if forallb (fun k => existsb (String.eqb k) fieldnames) (Py.keys rowdict)
  then Ok (map (fun key =>
                  match Py.get rowdict key with
                  | Some v => v
                  | None => VStr EmptyString
                  end) fieldnames)
  else Raise ValueError.

(** [DictWriter.writerows]: the records are written one after the other *)
Fixpoint writerows (fieldnames : list string) (rowdicts : list row)
    (written : table) : result unit * table :=
  match rowdicts with
  | [] => (Ok tt, written)
  | rowdict :: rest =>
      match dict_to_list fieldnames rowdict with
      | Ok cells => writerows fieldnames rest (written ++ [cells])
      | Raise e => (Raise e, written)
      end
  end.

Inductive exported : Type :=
| NothingToExport
| NotWritten
| Written (file : table)
| WriteRaised (e : exn) (file : table).

(** [can_open]: whether [open(filename, 'w')] succeeds; an [IOError] is
    caught and reported, any other exception leaves the function *)
Definition export_results (processed_data : list row) (can_open : bool)
    : exported :=
  match processed_data with
  | [] => NothingToExport
  | first :: _ =>
      let keys := Py.keys first in
      if can_open then
        match writerows keys processed_data [map VStr keys] with
        | (Ok _, file) => Written file
        | (Raise e, file) => WriteRaised e file
        end
      else NotWritten
  end.

(* ================================================================= *)
(** ** main.py *)

Inductive exit_status : Type :=
| Exit1
| Uncaught (e : exn)
| Finished.

(** how a run ends, the report it printed and the file it left *)
Record run : Type := {
  status : exit_status;
  printed : option report;
  output_file : option table
}.

Definition exit_early : run :=
  {| status := Exit1; printed := None; output_file := None |}.

(** The loaded invoice rows are the objects of the store, in order. *)
Definition main (factors_file invoice_file : csv_file) (can_open : bool) : run :=
  match load_csv_data factors_file with
  | FileNotFoundError => exit_early
  | Returned factors_db =>
      match load_csv_data invoice_file with
      | FileNotFoundError => exit_early
      | Returned invoices =>
          match factors_db, invoices with
          | [], _ => exit_early
          | _, [] => exit_early
          | _ :: _, _ :: _ =>
              match calculate_invoice_emissions
                      (seq 0 (List.length invoices)) factors_db invoices with
              | (Raise e, _) =>
                  {| status := Uncaught e; printed := None; output_file := None |}
              | (Ok final_data, h') =>
                  let final_rows := map (deref h') final_data in
                  match generate_text_report final_rows with
                  | Raise e =>
                      {| status := Uncaught e; printed := None;
                         output_file := None |}
                  | Ok rep =>
                      match export_results final_rows can_open with
                      | NothingToExport | NotWritten =>
                          {| status := Finished; printed := Some rep;
                             output_file := None |}
                      | Written file =>
                          {| status := Finished; printed := Some rep;
                             output_file := Some file |}
                      | WriteRaised e file =>
                          {| status := Uncaught e; printed := Some rep;
                             output_file := Some file |}
                      end
                  end
              end
          end
      end
  end.

(** the cells of a row under the given field names, [''] where it has none *)
Definition cells_of (fieldnames : list string) (r : row) : list pyval :=
  map (fun key =>
         match Py.get r key with
         | Some v => v
         | None => VStr EmptyString
         end) fieldnames.

(** every field of the row is among the field names *)
Definition fields_within (fieldnames : list string) (r : row) : bool :=
  forallb (fun k => existsb (String.eqb k) fieldnames) (Py.keys r).

(** the quantity and the factor the calculator uses for a line, and the
    record it emits for it *)
Definition qty_of (r : row) : float :=
  match quantity_of r with
  | Ok q => q
  | Raise _ => 1%float
  end.

Definition factor_for (factors_db : list row) (r : row) : float :=
  match get_emission_factor (description_of r) factors_db with
  | Ok f => f
  | Raise _ => 0%float
  end.

Definition enriched_row (factors_db : list row) (r : row) : row :=
  enrich r (factor_for factors_db r) (qty_of r).

(** an invoice file whose first record is short of its second cell *)
Definition short_first_invoice_file : csv_file :=
  Records [ ["item_description"; "quantity"];
            ["Laptop"];
            ["Coffee beans"; "3"] ].

(** a reference file with a record short of its factor cell *)
Definition short_factor_file : csv_file :=
  Records [ ["category"; "factor_kg_co2_per_unit"];
            ["coffee"; "5.0"];
            ["laptop"] ].

Definition demo_invoice_file : csv_file :=
  Records [ ["item_description"; "quantity"];
            ["Laptop"; "2"];
            ["Coffee beans"; "3"] ].

(** the file loads to no row at all *)
Definition loads_nothing (f : csv_file) : bool :=
  match load_csv_data f with
  | Returned (_ :: _) => false
  | _ => true
  end.

(** the line's [item_description] is text, or the line has none *)
Definition description_text_or_absent (r : row) : bool :=
  match Py.get r "item_description" with
  | Some (VFloat _) => false
  | _ => true
  end.

(** ** analytics.py: what the report prints of the statistics *)

(** [bool(v)]: a text is true when it is not empty, a float when it is not
    zero *)
Definition truthy (v : pyval) : bool :=
  match v with
  | VStr s => negb (String.eqb s EmptyString)
  | VFloat f => negb (f =? 0)%float
  end.

(** lines 25-26, [if highest_item: print(...)]: the item named in the
    "Highest Emitting Item" line, [None] when that line is not printed *)
Definition printed_highest_item (rep : report) : option pyval :=
  match highest_item rep with
  | Some v => if truthy v then Some v else None
  | None => None
  end.

(** lines 30-31: whether the warning about unmatched items is printed *)
Definition prints_warning (rep : report) : bool := 0 <? unmatched_count rep.

(** The file gives the loader nothing to return: there is no file, it
    cannot be read, it has no header line, one of its records is longer
    than the header, or none of its records is other than blank. *)
Definition unusable (f : csv_file) : bool :=
  match f with
  | NoFile => true
  | Unreadable => true
  | Records [] => true
  | Records (header :: records) =>
      negb (not_blank header)
      || existsb (fun record => List.length header <? List.length record) records
      || negb (existsb not_blank records)
  end.

(** main.py, lines 39-47: the run from the call of the calculator on *)
Definition run_core (factors_db invoices : list row) (can_open : bool) : run :=
  match calculate_invoice_emissions
          (seq 0 (List.length invoices)) factors_db invoices with
  | (Raise x, _) =>
      {| status := Uncaught x; printed := None; output_file := None |}
  | (Ok final_data, h') =>
      match generate_text_report (map (deref h') final_data) with
      | Raise x =>
          {| status := Uncaught x; printed := None; output_file := None |}
      | Ok rep =>
          match export_results (map (deref h') final_data) can_open with
          | NothingToExport | NotWritten =>
              {| status := Finished; printed := Some rep; output_file := None |}
          | Written file =>
              {| status := Finished; printed := Some rep;
                 output_file := Some file |}
          | WriteRaised x file =>
              {| status := Uncaught x; printed := Some rep;
                 output_file := Some file |}
          end
      end
  end.

(* ================================================================= *)
(** * Properties *)

(** ** Text *)

Lemma startswith_spec (p s : string) :
  Py.startswith p s = true <-> exists t, s = (p ++ t)%string.
Proof.
  revert s; induction p as [|a p IH]; intros s; simpl.
  - split; [intros _; now exists s | reflexivity].
  - destruct s as [|b s]; simpl.
    + split; [discriminate | intros [t Ht]; discriminate].
    + rewrite andb_true_iff, Ascii.eqb_eq, IH. split.
      * intros [-> [t ->]]. now exists t.
      * intros [t Ht]. injection Ht as -> ->. split; [reflexivity | now exists t].
Qed.

Lemma contains_spec (sub s : string) :
  Py.contains sub s = true <-> is_substring sub s.
Proof.
  unfold is_substring. induction s as [|c s IH].
  - simpl. rewrite orb_false_r, startswith_spec. split.
    + intros [t Ht]. exists EmptyString, t. exact Ht.
    + intros [pre [post H]]. destruct pre; [now exists post | discriminate].
  - cbn [Py.contains]. rewrite orb_true_iff, startswith_spec, IH. split.
    + intros [[t Ht] | [pre [post H]]].
      * exists EmptyString, t. exact Ht.
      * exists (String c pre), post. simpl. now rewrite H.
    + intros [pre [post H]]. destruct pre as [|a pre]; simpl in H.
      * left. now exists post.
      * right. injection H as -> ->. now exists pre, post.
Qed.

Lemma contains_empty_key (s : string) : Py.contains EmptyString s = true.
Proof. destruct s; reflexivity. Qed.

Lemma contains_in_empty (sub : string) :
  sub <> EmptyString -> Py.contains sub EmptyString = false.
Proof. destruct sub; [congruence | reflexivity]. Qed.

Lemma isspace_lower_char (c : ascii) :
  Py.isspace (Py.lower_char c) = Py.isspace c.
Proof. destruct c as [[] [] [] [] [] [] [] []]; reflexivity. Qed.

Lemma all_space_normalizes (s : string) :
  all_space s = true -> Py.strip (Py.lower s) = EmptyString.
Proof.
  unfold Py.strip. induction s as [|c s IH]; simpl; [reflexivity|].
  rewrite andb_true_iff. intros [Hc Hs].
  rewrite isspace_lower_char, Hc. now apply IH.
Qed.

(** ** Dictionaries *)

Section Dict.
Context {V : Type}.
Implicit Types (d : Py.dict V) (k : string) (v : V).

Lemma get_setitem_same d k v : Py.get (Py.setitem d k v) k = Some v.
Proof.
  induction d as [|[k' v'] d IH]; simpl.
  - now rewrite String.eqb_refl.
  - destruct (String.eqb k' k) eqn:E; simpl; rewrite E; [reflexivity | exact IH].
Qed.

Lemma get_setitem_other d k k' v :
  k' <> k -> Py.get (Py.setitem d k v) k' = Py.get d k'.
Proof.
  intros Hne. induction d as [|[k0 v0] d IH]; simpl.
  - destruct (String.eqb k k') eqn:E; [|reflexivity].
    apply String.eqb_eq in E. congruence.
  - destruct (String.eqb k0 k) eqn:E; simpl.
    + apply String.eqb_eq in E. subst k0.
      destruct (String.eqb k k') eqn:E'; [|reflexivity].
      apply String.eqb_eq in E'. congruence.
    + now rewrite IH.
Qed.

Lemma get_Some_iff_key d k : (exists v, Py.get d k = Some v) <-> In k (Py.keys d).
Proof.
  induction d as [|[k' v'] d IH]; simpl.
  - split; [intros [v H]; discriminate | tauto].
  - destruct (String.eqb k' k) eqn:E.
    + apply String.eqb_eq in E. split; [now left | intros _; now exists v'].
    + apply String.eqb_neq in E. rewrite IH. tauto.
Qed.

Lemma getitem_key d k :
  In k (Py.keys d) -> exists v, Py.get d k = Some v /\ Py.getitem d k = Ok v.
Proof.
  intros H. apply get_Some_iff_key in H as [v Hv]. exists v.
  unfold Py.getitem. now rewrite Hv.
Qed.

(** a key is in the dict after [d[k] = v] iff it is [k] or was there *)
Lemma keys_setitem d k v k' :
  In k' (Py.keys (Py.setitem d k v)) <-> k' = k \/ In k' (Py.keys d).
Proof.
  induction d as [|[k0 v0] d IH]; simpl.
  - intuition congruence.
  - destruct (String.eqb k0 k) eqn:E; simpl.
    + apply String.eqb_eq in E. subst. intuition congruence.
    + rewrite IH. tauto.
Qed.
End Dict.

(** ** The order of binary64 values

    [<?], [<=?] and [=?] are read through the comparison of the values
    they denote; a comparison with [nan] is undefined. *)

Module FloatOrder.

Definition cmp (x y : float) : option comparison :=
  SFcompare (Prim2SF x) (Prim2SF y).

Ltac cases_compare :=
  repeat match goal with
  | H : context [Pos.compare_cont Eq ?a ?b] |- _ =>
      change (Pos.compare_cont Eq a b) with (Pos.compare a b) in H
  | |- context [Pos.compare_cont Eq ?a ?b] =>
      change (Pos.compare_cont Eq a b) with (Pos.compare a b)
  end;
  repeat match goal with
  | H : context [Z.compare ?a ?b] |- _ => destruct (Z.compare_spec a b)
  | |- context [Z.compare ?a ?b] => destruct (Z.compare_spec a b)
  | H : context [Pos.compare ?a ?b] |- _ => destruct (Pos.compare_spec a b)
  | |- context [Pos.compare ?a ?b] => destruct (Pos.compare_spec a b)
  end;
  simpl in *; try congruence; try lia.

Lemma SFcompare_sym a b c :
  SFcompare a b = Some c -> SFcompare b a = Some (CompOpp c).
Proof.
  destruct a as [[]|[]| |[] ma ea], b as [[]|[]| |[] mb eb]; simpl;
    try discriminate; try (intros [= <-]; reflexivity);
    intros H; cases_compare; injection H as <-; reflexivity.
Qed.

Lemma SFcompare_trans a b c r :
  SFcompare a b = Some r -> SFcompare b c = Some r -> SFcompare a c = Some r.
Proof.
  destruct a as [[]|[]| |[] ma ea], b as [[]|[]| |[] mb eb], c as [[]|[]| |[] mc ec];
    simpl; try discriminate; try congruence;
    intros H1 H2; try (rewrite <- H1 in H2; discriminate);
    try (rewrite <- H1; reflexivity); cases_compare.
Qed.


Lemma SFcompare_Eq_r a b c r :
  SFcompare a b = Some r -> SFcompare b c = Some Eq -> SFcompare a c = Some r.
Proof.
  destruct a as [[]|[]| |[] ma ea], b as [[]|[]| |[] mb eb], c as [[]|[]| |[] mc ec];
    simpl; try discriminate; try congruence;
    intros H1 H2; cases_compare.
Qed.


Lemma ltb_cmp x y : (x <? y)%float = true <-> cmp x y = Some Lt.
Proof.
  rewrite ltb_spec. unfold SFltb, cmp.
  destruct (SFcompare _ _) as [[]|]; split; congruence.
Qed.

Lemma leb_cmp x y :
  (x <=? y)%float = true <-> cmp x y = Some Lt \/ cmp x y = Some Eq.
Proof.
  rewrite leb_spec. unfold SFleb, cmp.
  destruct (SFcompare _ _) as [[]|]; split; intros; intuition congruence.
Qed.



Lemma leb_false_cmp x y :
  (x <=? y)%float = false <-> cmp x y <> Some Lt /\ cmp x y <> Some Eq.
Proof.
  pose proof (leb_cmp x y) as H. destruct (x <=? y)%float.
  - split; [discriminate|]. intros [H1 H2]. destruct H as [H _].
    destruct (H eq_refl); contradiction.
  - split; [|reflexivity]. intros _.
    split; intros E; destruct H as [_ H]; discriminate H; auto.
Qed.

Lemma ltb_trans x y z :
  (x <? y)%float = true -> (y <? z)%float = true -> (x <? z)%float = true.
Proof. rewrite !ltb_cmp. apply SFcompare_trans. Qed.

Lemma ltb_leb_trans x y z :
  (x <? y)%float = true -> (y <=? z)%float = true -> (x <? z)%float = true.
Proof.
  rewrite !ltb_cmp, leb_cmp. intros H [H'|H'].
  - exact (SFcompare_trans _ _ _ _ H H').
  - exact (SFcompare_Eq_r _ _ _ _ H H').
Qed.


Lemma ltb_not_leb x y : (x <? y)%float = true -> (y <=? x)%float = false.
Proof.
  rewrite ltb_cmp, leb_false_cmp. unfold cmp. intros H.
  apply SFcompare_sym in H. simpl in H. rewrite H. split; discriminate.
Qed.

Lemma leb_not_ltb x y : (x <=? y)%float = true -> (y <? x)%float = false.
Proof.
  intros H. destruct (y <? x)%float eqn:E; [|reflexivity].
  apply ltb_not_leb in E. congruence.
Qed.

Lemma ltb_leb x y : (x <? y)%float = true -> (x <=? y)%float = true.
Proof. rewrite ltb_cmp, leb_cmp. now left. Qed.





End FloatOrder.

(* ================================================================= *)
(** ** The aggregator *)

Lemma report_step_enriched (r : row) (total : float) (item : option pyval)
    (val : float) :
  enriched r = true ->
  exists d,
    Py.get r "item_description" = Some d
    /\ report_step (total, item, val) r
       = Ok (if (val <? line_co2 r)%float
             then ((total + line_co2 r)%float, Some d, line_co2 r)
             else ((total + line_co2 r)%float, item, val)).
Proof.
  unfold enriched, report_step, line_co2, Py.getitem.
  destruct (Py.get r "item_description") as [d|]; [|discriminate].
  destruct (Py.get r "matched_factor") as [[|f]|]; try discriminate.
  destruct (Py.get r "total_line_co2") as [[|c]|]; try discriminate.
  intros _. exists d. split; [reflexivity|]. simpl.
  destruct (val <? c)%float; reflexivity.
Qed.

Lemma is_peak_below (seen : list row) (item : option pyval) (val : float) :
  is_peak seen item val ->
  forall x, In x seen -> (val <? line_co2 x)%float = false.
Proof.
  destruct item as [d|]; simpl.
  - intros (pre & r & post & -> & _ & -> & _ & Hpre & Hpost) x Hx.
    apply in_app_or in Hx as [Hx | [<- | Hx]].
    + specialize (Hpre x Hx).
      destruct (line_co2 r <? line_co2 x)%float eqn:E; [|reflexivity].
      apply FloatOrder.ltb_leb in E. congruence.
    + destruct (line_co2 r <? line_co2 r)%float eqn:E; [|reflexivity].
      pose proof (FloatOrder.ltb_not_leb _ _ E) as E'.
      apply FloatOrder.ltb_leb in E. congruence.
    + now apply Hpost.
  - intros [-> H]. exact H.
Qed.

Lemma is_peak_floor (seen : list row) (item : option pyval) (val : float) (c : float) :
  is_peak seen item val -> (val <? c)%float = true -> (-1 <? c)%float = true.
Proof.
  destruct item as [d|]; simpl.
  - intros (pre & r & post & _ & _ & -> & Hr & _) Hc.
    exact (FloatOrder.ltb_trans _ _ _ Hr Hc).
  - now intros [-> _].
Qed.

Lemma is_peak_step (seen : list row) (item : option pyval) (val : float)
    (r : row) (d : pyval) :
  is_peak seen item val ->
  Py.get r "item_description" = Some d ->
  if (val <? line_co2 r)%float
  then is_peak (seen ++ [r]) (Some d) (line_co2 r)
  else is_peak (seen ++ [r]) item val.
Proof.
  intros Hpk Hd. destruct (val <? line_co2 r)%float eqn:E.
  - exists seen, r, []. repeat split; auto.
    + exact (is_peak_floor _ _ _ _ Hpk E).
    + intros x Hx. pose proof (is_peak_below _ _ _ Hpk x Hx) as Hb.
      destruct (line_co2 r <=? line_co2 x)%float eqn:E'; [|reflexivity].
      rewrite (FloatOrder.ltb_leb_trans _ _ _ E E') in Hb. discriminate.
    + intros x [].
  - destruct item as [d0|]; simpl in *.
    + destruct Hpk as (pre & r0 & post & -> & Hd0 & -> & Hr0 & Hpre & Hpost).
      exists pre, r0, (post ++ [r]). rewrite <- app_assoc. repeat split; auto.
      intros x Hx. apply in_app_or in Hx as [Hx | [<- | []]]; auto.
    + destruct Hpk as [-> H]. split; [reflexivity|].
      intros x Hx. apply in_app_or in Hx as [Hx | [<- | []]]; auto.
Qed.

Lemma report_loop_enriched (lines seen : list row) (total : float)
    (item : option pyval) (val : float) :
  forallb enriched lines = true ->
  is_peak seen item val ->
  exists item' val',
    report_loop lines (total, item, val)
    = Ok (fold_left (fun acc r => (acc + line_co2 r)%float) lines total, item', val')
    /\ is_peak (seen ++ lines) item' val'.
Proof.
  revert seen total item val.
  induction lines as [|r lines IH]; intros seen total item val Hen Hpk.
  - exists item, val. rewrite app_nil_r. now split.
  - simpl in Hen. apply andb_true_iff in Hen as [Hr Hen].
    destruct (report_step_enriched r total item val Hr) as (d & Hd & Hstep).
    pose proof (is_peak_step seen item val r d Hpk Hd) as Hpk'.
    cbn [report_loop fold_left]. rewrite Hstep.
    replace (seen ++ r :: lines) with ((seen ++ [r]) ++ lines)
      by (rewrite <- app_assoc; reflexivity).
    destruct (val <? line_co2 r)%float; simpl; now apply IH.
Qed.

Lemma count_unmatched_enriched (lines : list row) :
  forallb enriched lines = true ->
  count_unmatched lines = Ok (List.length (unmatched lines)).
Proof.
  induction lines as [|r lines IH]; [reflexivity|].
  simpl. intros Hen. apply andb_true_iff in Hen as [Hr Hen].
  rewrite (IH Hen). unfold is_unmatched, unmatched, line_factor, Py.getitem.
  unfold enriched in Hr.
  destruct (Py.get r "item_description"); [|discriminate].
  destruct (Py.get r "matched_factor") as [[|f]|]; try discriminate.
  simpl. destruct (f =? 0)%float; reflexivity.
Qed.

Lemma generate_text_report_enriched (processed_data : list row) :
  forallb enriched processed_data = true ->
  exists item val,
    generate_text_report processed_data
    = Ok {| total_co2 := sum_co2 processed_data;
            highest_item := item;
            highest_val := val;
            unmatched_count := List.length (unmatched processed_data) |}
    /\ is_peak processed_data item val.
Proof.
  intros Hen.
  assert (Hinit : is_peak [] None (-1)%float) by (split; [reflexivity | intros x []]).
  destruct (report_loop_enriched processed_data [] 0%float None (-1)%float Hen Hinit)
    as (item & val & Hloop & Hpk).
  exists item, val. split; [|exact Hpk].
  unfold generate_text_report. rewrite Hloop. cbn [bind].
  now rewrite (count_unmatched_enriched _ Hen).
Qed.

(** C4: over enriched lines the aggregation yields the sum of
    [total_line_co2] in input order ([0.0] for no line), the number of lines
    whose [matched_factor] is [0.0], and as [highest_item] the description of
    the line at which the running maximum was last exceeded, which is the
    earliest line that attains the maximum: every earlier line is strictly
    below it and no later line is above it; with no line, [None]. *)
Theorem aggregation_summary (processed_data : list row) :
  forallb enriched processed_data = true ->
  exists rep,
    generate_text_report processed_data = Ok rep
    /\ total_co2 rep = sum_co2 processed_data
    /\ sum_co2 [] = 0%float
    /\ unmatched_count rep = List.length (unmatched processed_data)
    /\ (processed_data = [] -> highest_item rep = None)
    /\ match highest_item rep with
       | None =>
           forall x, In x processed_data -> (-1 <? line_co2 x)%float = false
       | Some d =>
           exists pre r post,
             processed_data = pre ++ r :: post
             /\ Py.get r "item_description" = Some d
             /\ highest_val rep = line_co2 r
             /\ (forall x, In x pre -> (line_co2 r <=? line_co2 x)%float = false)
             /\ (forall x, In x post -> (line_co2 r <? line_co2 x)%float = false)
       end.
Proof.
  intros Hen.
  destruct (generate_text_report_enriched processed_data Hen)
    as (item & val & Hrep & Hpk).
  eexists. split; [exact Hrep|].
  cbn [total_co2 unmatched_count highest_item highest_val].
  repeat split.
  - intros ->. destruct item as [d|]; [|reflexivity].
    destruct Hpk as (pre & r & post & H & _). now destruct pre.
  - destruct item as [d|]; simpl in Hpk.
    + destruct Hpk as (pre & r & post & -> & Hd & -> & _ & Hpre & Hpost).
      now exists pre, r, post.
    + now destruct Hpk.
Qed.

Lemma aggregation_summary_witness :
  forallb enriched demo_lines = true
  /\ exists rep,
       generate_text_report demo_lines = Ok rep
       /\ total_co2 rep = 20%float
       /\ highest_item rep = Some (VStr "B")
       /\ unmatched_count rep = 1.
Proof.
  split; [reflexivity|].
  destruct (aggregation_summary demo_lines eq_refl) as (rep & Hrep & _).
  exists rep. split; [exact Hrep|].
  vm_compute in Hrep. injection Hrep as <-. repeat split.
Defined.

(** C10: the running maximum starts at [-1.0] and is replaced only by a
    strictly greater value, so over a non-empty sequence of enriched lines
    whose [total_line_co2] are all at most [-1.0] the report has no
    [highest_item]. *)
Theorem highest_item_absent_below_floor (processed_data : list row) :
  processed_data <> [] ->
  forallb enriched processed_data = true ->
  forallb (fun r => (line_co2 r <=? -1)%float) processed_data = true ->
  exists rep,
    generate_text_report processed_data = Ok rep
    /\ highest_item rep = None
    /\ highest_val rep = (-1)%float.
Proof.
  intros _ Hen Hlow.
  destruct (generate_text_report_enriched processed_data Hen)
    as (item & val & Hrep & Hpk).
  eexists. split; [exact Hrep|]. cbn [highest_item highest_val].
  destruct item as [d|]; simpl in Hpk.
  - destruct Hpk as (pre & r & post & -> & _ & _ & Hr & _).
    rewrite forallb_app in Hlow. apply andb_true_iff in Hlow as [_ Hlow].
    simpl in Hlow. apply andb_true_iff in Hlow as [Hlow _].
    apply FloatOrder.leb_not_ltb in Hlow. congruence.
  - now destruct Hpk.
Qed.

Lemma highest_item_absent_below_floor_witness :
  demo_return <> []
  /\ forallb enriched demo_return = true
  /\ forallb (fun r => (line_co2 r <=? -1)%float) demo_return = true
  /\ exists rep,
       generate_text_report demo_return = Ok rep /\ highest_item rep = None
       /\ highest_val rep = (-1)%float.
Proof.
  assert (Hne : demo_return <> []) by discriminate.
  repeat split; [exact Hne|].
  exact (highest_item_absent_below_floor demo_return Hne eq_refl eq_refl).
Defined.

(* ================================================================= *)
(** ** The reference index *)

Lemma keys_setitem_eq {V : Type} (d : Py.dict V) (k : string) (v : V) :
  (In k (Py.keys d) /\ Py.keys (Py.setitem d k v) = Py.keys d)
  \/ (~ In k (Py.keys d) /\ Py.keys (Py.setitem d k v) = Py.keys d ++ [k]).
Proof.
  induction d as [|[k0 v0] d IH]; simpl.
  - right. split; [tauto | reflexivity].
  - destruct (String.eqb k0 k) eqn:E; simpl.
    + apply String.eqb_eq in E. left. split; [now left | reflexivity].
    + apply String.eqb_neq in E.
      destruct IH as [[Hin Heq] | [Hnin Heq]]; rewrite Heq.
      * left. split; [now right | reflexivity].
      * right. split; [intros [H | H]; [congruence | contradiction] | reflexivity].
Qed.

Lemma NoDup_keys_setitem {V : Type} (d : Py.dict V) (k : string) (v : V) :
  NoDup (Py.keys d) -> NoDup (Py.keys (Py.setitem d k v)).
Proof.
  intros Hnd. destruct (keys_setitem_eq d k v) as [[_ ->] | [Hnin ->]]; [exact Hnd|].
  apply NoDup_app; [exact Hnd | constructor; [intros [] | constructor] |].
  intros x Hx [<- | []]. contradiction.
Qed.

(** what one pass of the loop does with a well-formed record *)
Lemma add_entry_well_formed (factor_map : Py.dict float) (e : row) :
  well_formed_entry e = true ->
  add_entry factor_map e
  = Ok match entry_factor e with
       | Some f => Py.setitem factor_map (entry_key e) f
       | None => factor_map
       end.
Proof.
  unfold well_formed_entry, add_entry, entry_factor, entry_key, Py.getitem.
  destruct (Py.get e "category") as [[s|]|]; try discriminate.
  destruct (Py.get e "factor_kg_co2_per_unit") as [v|]; [|discriminate].
  intros _. cbn [bind lower_strip].
  destruct v as [t|f]; cbn [py_float]; [|reflexivity].
  destruct (Py.float_of_str t); reflexivity.
Qed.

(** a record whose factor does not parse leaves the index as it is *)
Lemma add_entry_unparsable (factor_map : Py.dict float) (e : row) :
  well_formed_entry e = true -> entry_factor e = None ->
  add_entry factor_map e = Ok factor_map.
Proof. intros Hwf Hf. now rewrite (add_entry_well_formed _ _ Hwf), Hf. Qed.

Lemma build_factor_map_app (db1 db2 : list row) (factor_map : Py.dict float) :
  build_factor_map (db1 ++ db2) factor_map
  = (fm <- build_factor_map db1 factor_map ;; build_factor_map db2 fm).
Proof.
  revert factor_map. induction db1 as [|e db1 IH]; intros fm; simpl; [reflexivity|].
  destruct (add_entry fm e) as [fm'|x]; simpl; [apply IH | reflexivity].
Qed.

Lemma build_factor_map_spec (factors_db : list row) (fm0 : Py.dict float) :
  forallb well_formed_entry factors_db = true ->
  exists factor_map,
    build_factor_map factors_db fm0 = Ok factor_map
    /\ (forall k, Py.get factor_map k
                  = match last_write factors_db k with
                    | Some f => Some f
                    | None => Py.get fm0 k
                    end)
    /\ (forall k, In k (Py.keys factor_map)
                  <-> In k (Py.keys fm0)
                      \/ exists e f, In e factors_db /\ entry_key e = k
                                     /\ entry_factor e = Some f)
    /\ (NoDup (Py.keys fm0) -> NoDup (Py.keys factor_map)).
Proof.
  revert fm0. induction factors_db as [|e db IH]; intros fm0 Hwf.
  - exists fm0. simpl. repeat split; auto.
    intros [H | (e & f & [] & _)]. exact H.
  - simpl in Hwf. apply andb_true_iff in Hwf as [He Hdb].
    cbn [build_factor_map]. rewrite (add_entry_well_formed fm0 e He). cbn [bind].
    destruct (IH (match entry_factor e with
                  | Some f => Py.setitem fm0 (entry_key e) f
                  | None => fm0
                  end) Hdb) as (fm & Hb & Hget & Hkeys & Hnd).
    exists fm. split; [exact Hb|]. split; [|split].
    + intros k. rewrite Hget. cbn [last_write].
      destruct (last_write db k); [reflexivity|].
      destruct (entry_factor e) as [f|].
      * destruct (String.eqb (entry_key e) k) eqn:E.
        -- apply String.eqb_eq in E. subst k. apply get_setitem_same.
        -- apply String.eqb_neq in E. apply get_setitem_other. congruence.
      * now destruct (String.eqb (entry_key e) k).
    + intros k. rewrite Hkeys. destruct (entry_factor e) as [f|] eqn:Ef.
      * rewrite keys_setitem. split.
        -- intros [[-> | H] | (e' & f' & Hin & Hk & Hf)]; [right | now left | right].
           ++ exists e, f. repeat split; auto. now left.
           ++ exists e', f'. repeat split; auto. now right.
        -- intros [H | (e' & f' & [<- | Hin] & Hk & Hf)].
           ++ left. now right.
           ++ left. left. now symmetry.
           ++ right. now exists e', f'.
      * split.
        -- intros [H | (e' & f' & Hin & Hk & Hf)]; [now left | right].
           exists e', f'. repeat split; auto. now right.
        -- intros [H | (e' & f' & [<- | Hin] & Hk & Hf)]; [now left | congruence |].
           right. now exists e', f'.
    + intros H0. apply Hnd. destruct (entry_factor e); [|exact H0].
      now apply NoDup_keys_setitem.
Qed.

(** C3: over records that carry both fields, the index is built without
    error; the value under a key is the factor of the latest record whose
    lowercased, stripped category is that key and whose factor parses
    (last write wins); the keys are exactly the normalized categories of the
    records whose factor parses, each once; and a record whose factor does
    not parse is skipped: the index is the one built without it. *)
Theorem reference_index_built (factors_db : list row) :
  forallb well_formed_entry factors_db = true ->
  exists factor_map,
    build_factor_map factors_db [] = Ok factor_map
    /\ (forall k, Py.get factor_map k = last_write factors_db k)
    /\ (forall k, In k (Py.keys factor_map)
                  <-> exists e f, In e factors_db /\ entry_key e = k
                                  /\ entry_factor e = Some f)
    /\ NoDup (Py.keys factor_map)
    /\ (forall pre bad post,
          factors_db = pre ++ bad :: post -> entry_factor bad = None ->
          build_factor_map (pre ++ post) [] = Ok factor_map).
Proof.
  intros Hwf.
  destruct (build_factor_map_spec factors_db [] Hwf) as (fm & Hb & Hget & Hkeys & Hnd).
  exists fm. split; [exact Hb|]. repeat split.
  - intros k. rewrite Hget. now destruct (last_write factors_db k).
  - intros H. apply Hkeys in H as [[] | H]. exact H.
  - intros H. apply Hkeys. now right.
  - apply Hnd. constructor.
  - intros pre bad post -> Hbad.
    rewrite forallb_app in Hwf. apply andb_true_iff in Hwf as [Hpre Hrest].
    simpl in Hrest. apply andb_true_iff in Hrest as [Hwfbad Hpost].
    rewrite build_factor_map_app in Hb. rewrite build_factor_map_app.
    destruct (build_factor_map pre []) as [fm1|x]; [|discriminate].
    cbn [bind build_factor_map] in Hb |- *.
    now rewrite (add_entry_unparsable fm1 bad Hwfbad Hbad) in Hb.
Qed.

Lemma reference_index_built_witness :
  forallb well_formed_entry demo_db = true
  /\ exists factor_map,
       build_factor_map demo_db [] = Ok factor_map
       /\ Py.keys factor_map = ["laptop"; "coffee"; "paper"]
       /\ Py.get factor_map "coffee" = Some 5%float.
Proof.
  split; [reflexivity|].
  destruct (reference_index_built demo_db eq_refl) as (fm & Hb & _).
  exists fm. split; [exact Hb|].
  vm_compute in Hb. injection Hb as <-. split; reflexivity.
Defined.

(* ================================================================= *)
(** ** The matcher *)

Lemma build_factor_map_well_formed (factors_db : list row) :
  forallb well_formed_entry factors_db = true ->
  exists factor_map, build_factor_map factors_db [] = Ok factor_map.
Proof.
  intros Hwf. destruct (build_factor_map_spec factors_db [] Hwf) as (fm & Hb & _).
  now exists fm.
Qed.

(** the shape of [get_emission_factor] once the description is text and the
    index is built *)
Lemma get_emission_factor_with_built
    (close_matches : string -> list string -> list string)
    (desc : string) (factors_db : list row) (factor_map : Py.dict float) :
  build_factor_map factors_db [] = Ok factor_map ->
  get_emission_factor_with close_matches (VStr desc) factors_db
  = match keyword_match (Py.keys factor_map) factor_map (Py.strip (Py.lower desc)) with
    | Some r => r
    | None =>
        match fuzzy_match close_matches (Py.split (Py.strip (Py.lower desc)))
                (Py.keys factor_map) factor_map with
        | Some r => r
        | None => Ok 0%float
        end
    end.
Proof. intros Hb. unfold get_emission_factor_with. cbn [lower_strip bind]. now rewrite Hb. Qed.

(** the first element of a list that satisfies a test *)
Lemma first_match_split {A : Type} (test : A -> bool) (l : list A) (x : A) :
  In x l -> test x = true ->
  exists before y after,
    l = before ++ y :: after /\ test y = true
    /\ forall z, In z before -> test z = false.
Proof.
  induction l as [|a l IH]; intros Hin Hx; [destruct Hin|].
  destruct (test a) eqn:Ea.
  - exists [], a, l. repeat split; auto. intros z [].
  - destruct Hin as [-> | Hin]; [congruence|].
    destruct (IH Hin Hx) as (before & y & after & -> & Hy & Hbefore).
    exists (a :: before), y, after. repeat split; auto.
    intros z [<- | Hz]; auto.
Qed.

Lemma keyword_match_first (before after : list string) (category : string)
    (factor_map : Py.dict float) (clean_desc : string) :
  Py.contains category clean_desc = true ->
  (forall c, In c before -> Py.contains c clean_desc = false) ->
  keyword_match (before ++ category :: after) factor_map clean_desc
  = Some (Py.getitem factor_map category).
Proof.
  intros Hc. induction before as [|b before IH]; intros Hb; simpl.
  - now rewrite Hc.
  - rewrite (Hb b (or_introl eq_refl)). apply IH. intros c Hin. apply Hb. now right.
Qed.

Lemma keyword_match_none (known : list string) (factor_map : Py.dict float)
    (clean_desc : string) :
  (forall c, In c known -> Py.contains c clean_desc = false) ->
  keyword_match known factor_map clean_desc = None.
Proof.
  induction known as [|c known IH]; intros H; simpl; [reflexivity|].
  rewrite (H c (or_introl eq_refl)). apply IH. intros c' Hin. apply H. now right.
Qed.

(** C1: if some key of the index occurs in the normalized description as a
    contiguous substring, the matcher returns the factor of the first such
    key in the index's order, whatever the fuzzy matcher would answer. *)
Theorem substring_tier_first_match
    (close_matches : string -> list string -> list string)
    (desc : string) (factors_db : list row) (factor_map : Py.dict float)
    (some_key : string) :
  build_factor_map factors_db [] = Ok factor_map ->
  In some_key (Py.keys factor_map) ->
  is_substring some_key (Py.strip (Py.lower desc)) ->
  exists before category after f,
    Py.keys factor_map = before ++ category :: after
    /\ is_substring category (Py.strip (Py.lower desc))
    /\ (forall c, In c before -> ~ is_substring c (Py.strip (Py.lower desc)))
    /\ Py.get factor_map category = Some f
    /\ get_emission_factor_with close_matches (VStr desc) factors_db = Ok f
    /\ get_emission_factor (VStr desc) factors_db = Ok f.
Proof.
  intros Hb Hin Hsub. apply contains_spec in Hsub.
  destruct (first_match_split (fun c => Py.contains c (Py.strip (Py.lower desc)))
              _ _ Hin Hsub) as (before & category & after & Hkeys & Hc & Hbefore).
  assert (Hk : In category (Py.keys factor_map))
    by (rewrite Hkeys; apply in_or_app; right; now left).
  destruct (getitem_key _ _ Hk) as (f & Hget & Hitem).
  exists before, category, after, f.
  split; [exact Hkeys|]. split; [now apply contains_spec|].
  split.
  { intros c Hcb Hs. apply contains_spec in Hs. rewrite (Hbefore c Hcb) in Hs. discriminate. }
  split; [exact Hget|].
  assert (Hgen : forall cm, get_emission_factor_with cm (VStr desc) factors_db = Ok f).
  { intros cm. rewrite (get_emission_factor_with_built cm desc factors_db factor_map Hb).
    rewrite Hkeys at 1.
    now rewrite (keyword_match_first before after category factor_map _ Hc Hbefore). }
  split; [apply Hgen | apply Hgen].
Qed.

Lemma substring_tier_first_match_witness :
  exists factor_map,
    build_factor_map demo_db [] = Ok factor_map
    /\ In "paper" (Py.keys factor_map)
    /\ is_substring "paper" (Py.strip (Py.lower "  Paper COFFEE cups "))
    /\ exists before category after f,
         Py.keys factor_map = before ++ category :: after
         /\ Py.get factor_map category = Some f
         /\ get_emission_factor (VStr "  Paper COFFEE cups ") demo_db = Ok f.
Proof.
  exists [("laptop", 250%float); ("coffee", 5%float); ("paper", 1.5%float)].
  assert (Hb : build_factor_map demo_db []
               = Ok [("laptop", 250%float); ("coffee", 5%float); ("paper", 1.5%float)])
    by (vm_compute; reflexivity).
  assert (Hin : In "paper" ["laptop"; "coffee"; "paper"]) by (simpl; tauto).
  assert (Hsub : is_substring "paper" (Py.strip (Py.lower "  Paper COFFEE cups ")))
    by (exists EmptyString, " coffee cups"; reflexivity).
  split; [exact Hb|]. split; [exact Hin|]. split; [exact Hsub|].
  destruct (substring_tier_first_match close_matches_07 "  Paper COFFEE cups " demo_db
              _ "paper" Hb Hin Hsub)
    as (before & category & after & f & Hkeys & _ & _ & Hget & _ & Hres).
  exists before, category, after, f.
  split; [exact Hkeys|]. split; [exact Hget | exact Hres].
Defined.

(** "paper" comes first in the description, "coffee" first in the index. *)
Example index_order_decides :
  get_emission_factor (VStr "  Paper COFFEE cups ") demo_db = Ok 5%float.
Proof. vm_compute. reflexivity. Qed.

(** two floats that [=?] tells apart are different values *)
Lemma Ok_float_neq (x y : float) :
  (x =? y)%float = false -> (y =? y)%float = true -> Ok x <> Ok y.
Proof. intros Hne Hy H. injection H as ->. congruence. Qed.

Lemma keyword_match_blank (known : list string) (factor_map : Py.dict float) :
  ~ In EmptyString known ->
  keyword_match known factor_map EmptyString = None.
Proof.
  intros Hne. apply keyword_match_none. intros c Hc.
  apply contains_in_empty. intros ->. contradiction.
Qed.

(** C6, as the code has it: when the index is built and none of its keys is
    empty, an empty or whitespace-only description normalizes to the empty
    text, no key is a substring of it, there is no word for the fuzzy tier,
    and the matcher returns [0.0]. *)
Theorem blank_description_unmatched (desc : string) (factors_db : list row)
    (factor_map : Py.dict float) :
  all_space desc = true ->
  build_factor_map factors_db [] = Ok factor_map ->
  ~ In EmptyString (Py.keys factor_map) ->
  Py.strip (Py.lower desc) = EmptyString
  /\ keyword_match (Py.keys factor_map) factor_map (Py.strip (Py.lower desc)) = None
  /\ Py.split (Py.strip (Py.lower desc)) = []
  /\ get_emission_factor (VStr desc) factors_db = Ok 0%float.
Proof.
  intros Hsp Hb Hne. pose proof (all_space_normalizes desc Hsp) as Hclean.
  unfold get_emission_factor.
  rewrite (get_emission_factor_with_built _ desc factors_db factor_map Hb), Hclean.
  rewrite (keyword_match_blank _ _ Hne). repeat split.
Qed.

Lemma blank_description_unmatched_witness :
  all_space "   " = true
  /\ build_factor_map demo_db []
     = Ok [("laptop", 250%float); ("coffee", 5%float); ("paper", 1.5%float)]
  /\ get_emission_factor (VStr "   ") demo_db = Ok 0%float.
Proof.
  assert (Hb : build_factor_map demo_db []
               = Ok [("laptop", 250%float); ("coffee", 5%float); ("paper", 1.5%float)])
    by (vm_compute; reflexivity).
  assert (Hne : ~ In EmptyString (Py.keys [("laptop", 250%float); ("coffee", 5%float);
                                            ("paper", 1.5%float)]))
    by (simpl; intros [H | [H | [H | []]]]; discriminate).
  split; [reflexivity|]. split; [exact Hb|].
  exact (proj2 (proj2 (proj2
           (blank_description_unmatched "   " demo_db _ eq_refl Hb Hne)))).
Defined.

(** C6 as stated fails: with an empty category in the table the empty key is
    a substring of every description, the empty one included. *)
Lemma blank_category_matches_blank : ~ blank_is_unmatched blank_category_db.
Proof.
  intros H. specialize (H EmptyString eq_refl). vm_compute in H.
  revert H. apply Ok_float_neq; reflexivity.
Qed.

(* ================================================================= *)
(** ** The fuzzy tier *)

Lemma scored_In (word : string) (cutoff : float) (possibilities : list string)
    (p : float * string) :
  In p (difflib.scored word cutoff possibilities)
  <-> fst p = difflib.ratio (snd p) word
      /\ In (snd p) possibilities
      /\ difflib.close_enough word cutoff (snd p) = true.
Proof.
  induction possibilities as [|x ps IH]; simpl; [tauto|].
  destruct (difflib.close_enough word cutoff x) eqn:E; simpl; rewrite IH.
  - split.
    + intros [<- | (H1 & H2 & H3)]; simpl; auto.
    + intros (H1 & [-> | H2] & H3); [left; destruct p; simpl in *; congruence | tauto].
  - split; [tauto|]. intros (H1 & [-> | H2] & H3); [congruence | tauto].
Qed.









Lemma demo_index_built : build_factor_map demo_db [] = Ok demo_index.
Proof. vm_compute. reflexivity. Qed.


(** The first qualifying word decides although a later word scores higher:
    "papre" selects "paper" at ratio 0.8 while "coffe" would select "coffee"
    at ratio 10/11. *)
Example earlier_word_wins :
  get_emission_factor (VStr "xyz Papre coffe") demo_db = Ok 1.5%float
  /\ (difflib.ratio "paper" "papre" <? difflib.ratio "coffee" "coffe")%float = true.
Proof. split; vm_compute; reflexivity. Qed.

(** A ratio equal to the cutoff is accepted (7 of 10 letters in common); one
    letter less is not. *)
Example cutoff_is_inclusive :
  (difflib.ratio "abcdefghij" "abcdefgxyz" =? fuzzy_cutoff)%float = true
  /\ get_emission_factor (VStr "abcdefgxyz") letters_db = Ok 3%float
  /\ get_emission_factor (VStr "abcdefxyzw") letters_db = Ok 0%float.
Proof. split; [|split]; vm_compute; reflexivity. Qed.

(** The self-check of logic.py. *)
Example logic_self_check :
  let test_db :=
    [ [("category", VStr "laptop"); ("factor_kg_co2_per_unit", VStr "250.0")];
      [("category", VStr "coffee"); ("factor_kg_co2_per_unit", VStr "5.0")] ] in
  get_emission_factor (VStr "Laptop") test_db = Ok 250%float
  /\ get_emission_factor (VStr "Premium Coffee Beans") test_db = Ok 5%float
  /\ get_emission_factor (VStr "Coffe") test_db = Ok 5%float.
Proof. cbv zeta. split; [|split]; vm_compute; reflexivity. Qed.

(* ================================================================= *)
(** ** The store *)

Lemma deref_app_old (h added : heap) (l : loc) :
  l < List.length h -> deref (h ++ added) l = deref h l.
Proof. intros Hl. unfold deref. now apply app_nth1. Qed.

Lemma deref_app_new (h added : heap) (i : nat) :
  deref (h ++ added) (List.length h + i) = nth i added [].
Proof.
  unfold deref. rewrite app_nth2 by lia. f_equal. lia.
Qed.

Lemma store_app_last (h : heap) (r r' : row) :
  store (h ++ [r]) (List.length h) r' = h ++ [r'].
Proof. induction h as [|x h IH]; simpl; [reflexivity | now rewrite IH]. Qed.

Lemma dict_setitem_last (h : heap) (r : row) (k : string) (v : pyval) :
  dict_setitem (h ++ [r]) (List.length h) k v = h ++ [Py.setitem r k v].
Proof.
  unfold dict_setitem.
  replace (deref (h ++ [r]) (List.length h)) with r.
  - apply store_app_last.
  - unfold deref. rewrite app_nth2 by lia. now rewrite Nat.sub_diag.
Qed.

(* ================================================================= *)
(** ** The calculator *)

Lemma quantity_of_total (r : row) : exists qty, quantity_of r = Ok qty.
Proof.
  unfold quantity_of. destruct (Py.get r "quantity") as [[s|f]|]; simpl.
  - destruct (Py.float_of_str s) as [q|]; eexists; reflexivity.
  - eexists; reflexivity.
  - eexists; reflexivity.
Qed.

Lemma max_from_In (rest : list (float * string)) (best : float * string) :
  In (difflib.max_from best rest) (best :: rest).
Proof.
  revert best. induction rest as [|q rest IH]; intros best; simpl; [now left|].
  destruct (IH (if difflib.tuple_gt q best then q else best)) as [H | H]; [|auto].
  rewrite <- H. destruct (difflib.tuple_gt q best); auto.
Qed.

Lemma get_close_matches_In (word : string) (possibilities : list string)
    (cutoff : float) (x : string) :
  In x (difflib.get_close_matches word possibilities cutoff) -> In x possibilities.
Proof.
  unfold difflib.get_close_matches.
  destruct (difflib.scored word cutoff possibilities) as [|p rest] eqn:E; [intros []|].
  intros [<- | []].
  pose proof (max_from_In rest p) as H. rewrite <- E in H.
  now apply scored_In in H.
Qed.

Lemma keyword_match_ok (known : list string) (factor_map : Py.dict float)
    (clean_desc : string) (r : result float) :
  incl known (Py.keys factor_map) ->
  keyword_match known factor_map clean_desc = Some r -> exists f, r = Ok f.
Proof.
  induction known as [|c known IH]; intros Hincl; simpl; [discriminate|].
  destruct (Py.contains c clean_desc).
  - intros [= <-]. destruct (getitem_key factor_map c) as (f & _ & Hf).
    + apply Hincl. now left.
    + now exists f.
  - apply IH. intros x Hx. apply Hincl. now right.
Qed.

Lemma fuzzy_match_ok (words : list string) (factor_map : Py.dict float)
    (r : result float) :
  fuzzy_match close_matches_07 words (Py.keys factor_map) factor_map = Some r ->
  exists f, r = Ok f.
Proof.
  induction words as [|w words IH]; simpl; [discriminate|].
  destruct (close_matches_07 w (Py.keys factor_map)) as [|best others] eqn:E; [exact IH|].
  intros [= <-]. destruct (getitem_key factor_map best) as (f & _ & Hf).
  - apply (get_close_matches_In w _ fuzzy_cutoff). unfold close_matches_07 in E.
    rewrite E. now left.
  - now exists f.
Qed.

(** with a well-formed table the matcher returns a factor for any text *)
Lemma get_emission_factor_total (desc : string) (factors_db : list row) :
  forallb well_formed_entry factors_db = true ->
  exists f, get_emission_factor (VStr desc) factors_db = Ok f.
Proof.
  intros Hwf. destruct (build_factor_map_well_formed factors_db Hwf) as (fm & Hb).
  unfold get_emission_factor.
  rewrite (get_emission_factor_with_built _ desc factors_db fm Hb).
  destruct (keyword_match _ _ _) as [r|] eqn:Ek.
  - apply (keyword_match_ok _ _ _ _ (incl_refl _) Ek).
  - destruct (fuzzy_match _ _ _ _) as [r|] eqn:Ef.
    + apply (fuzzy_match_ok _ _ _ Ef).
    + now exists 0%float.
Qed.

Lemma process_row_spec (factors_db : list row) (l : loc) (h : heap) :
  process_row factors_db l h
  = match enrich_line factors_db (deref h l) with
    | Ok r => (Ok (List.length h), h ++ [r])
    | Raise e => (Raise e, h)
    end.
Proof.
  unfold process_row, enrich_line.
  destruct (quantity_of (deref h l)) as [qty|e]; cbn [bind]; [|reflexivity].
  destruct (get_emission_factor _ factors_db) as [factor|e]; cbn [bind]; [|reflexivity].
  unfold dict_copy, alloc, enrich.
  now rewrite !dict_setitem_last.
Qed.

(** The loop only appends to the store: it returns the locations of the new
    objects, in order, and the store grown by the emitted records. *)
Lemma process_rows_spec (factors_db : list row) (h0 : heap)
    (invoice_data : list loc) (acc : list loc) (added : list row) :
  forallb (fun l => l <? List.length h0) invoice_data = true ->
  process_rows factors_db invoice_data acc (h0 ++ added)
  = (match snd (enrich_all factors_db h0 invoice_data) with
     | None =>
         Ok (acc ++ seq (List.length (h0 ++ added))
                        (List.length (fst (enrich_all factors_db h0 invoice_data))))
     | Some e => Raise e
     end,
     (h0 ++ added) ++ fst (enrich_all factors_db h0 invoice_data)).
Proof.
  revert acc added. induction invoice_data as [|l rest IH]; intros acc added Hal.
  - simpl. now rewrite !app_nil_r.
  - simpl in Hal. apply andb_true_iff in Hal as [Hl Hrest].
    apply Nat.ltb_lt in Hl.
    cbn [process_rows enrich_all]. rewrite process_row_spec.
    rewrite (deref_app_old h0 added l Hl).
    destruct (enrich_line factors_db (deref h0 l)) as [r|e].
    + cbv iota beta.
      replace ((h0 ++ added) ++ [r]) with (h0 ++ (added ++ [r]))
        by apply app_assoc.
      etransitivity;
        [exact (IH (acc ++ [List.length (h0 ++ added)]) (added ++ [r]) Hrest)|].
      destruct (enrich_all factors_db h0 rest) as [rs e]. cbn [fst snd].
      f_equal.
      * destruct e; [reflexivity|]. f_equal. rewrite <- app_assoc. f_equal.
        cbn [List.length seq app]. f_equal. f_equal.
        rewrite !length_app. simpl. lia.
      * rewrite <- !app_assoc. reflexivity.
    + simpl. now rewrite app_nil_r.
Qed.

Lemma calculate_invoice_emissions_spec (invoice_data : list loc)
    (factors_db : list row) (h : heap) :
  forallb (fun l => l <? List.length h) invoice_data = true ->
  calculate_invoice_emissions invoice_data factors_db h
  = (match snd (enrich_all factors_db h invoice_data) with
     | None =>
         Ok (seq (List.length h)
                 (List.length (fst (enrich_all factors_db h invoice_data))))
     | Some e => Raise e
     end,
     h ++ fst (enrich_all factors_db h invoice_data)).
Proof.
  intros Hal. unfold calculate_invoice_emissions.
  pose proof (process_rows_spec factors_db h invoice_data [] [] Hal) as H.
  rewrite !app_nil_r in H. exact H.
Qed.

(** when no line raises, one record is emitted per line, in order *)
Lemma enrich_all_ok (factors_db : list row) (h : heap) (invoice_data : list loc) :
  (forall l, In l invoice_data -> exists r, enrich_line factors_db (deref h l) = Ok r) ->
  snd (enrich_all factors_db h invoice_data) = None
  /\ List.length (fst (enrich_all factors_db h invoice_data)) = List.length invoice_data
  /\ forall i l, nth_error invoice_data i = Some l ->
       enrich_line factors_db (deref h l)
       = Ok (nth i (fst (enrich_all factors_db h invoice_data)) []).
Proof.
  induction invoice_data as [|l0 rest IH]; intros Hok.
  - simpl. repeat split; auto. intros [|i] l; discriminate.
  - destruct (Hok l0 (or_introl eq_refl)) as [r Hr].
    destruct IH as (He & Hlen & Hnth); [intros l Hl; apply Hok; now right|].
    cbn [enrich_all]. rewrite Hr.
    destruct (enrich_all factors_db h rest) as [rs e]. cbn [fst snd] in *.
    split; [exact He|]. split; [simpl; now rewrite Hlen|].
    intros [|i] l; simpl.
    + now intros [= <-].
    + apply Hnth.
Qed.

Lemma enrich_all_upto (factors_db : list row) (h : heap) (invoice_data : list loc)
    (i : nat) (l : loc) :
  nth_error invoice_data i = Some l ->
  i < List.length (fst (enrich_all factors_db h invoice_data)) ->
  enrich_line factors_db (deref h l)
  = Ok (nth i (fst (enrich_all factors_db h invoice_data)) []).
Proof.
  revert i. induction invoice_data as [|l0 rest IH]; intros i; [destruct i; discriminate|].
  cbn [enrich_all].
  destruct (enrich_line factors_db (deref h l0)) as [r|e] eqn:E;
    [|simpl; intros _ H; lia].
  destruct (enrich_all factors_db h rest) as [rs e] eqn:Er. cbn [fst] in *.
  destruct i as [|i]; simpl.
  - now intros [= <-] _.
  - intros Hn Hi. apply IH; [exact Hn | lia].
Qed.

Lemma get_enrich_other (r : row) (factor qty : float) (k : string) :
  derived_field k = false -> Py.get (enrich r factor qty) k = Py.get r k.
Proof.
  unfold derived_field, enrich. intros H. apply orb_false_iff in H as [H1 H2].
  apply String.eqb_neq in H1, H2.
  now rewrite !get_setitem_other by congruence.
Qed.

Lemma get_enrich_factor (r : row) (factor qty : float) :
  Py.get (enrich r factor qty) "matched_factor" = Some (VFloat factor).
Proof.
  unfold enrich. rewrite get_setitem_other by discriminate. apply get_setitem_same.
Qed.

Lemma get_enrich_total (r : row) (factor qty : float) :
  Py.get (enrich r factor qty) "total_line_co2" = Some (VFloat (qty * factor)%float).
Proof. unfold enrich. apply get_setitem_same. Qed.

Lemma enrich_line_inv (factors_db : list row) (r r' : row) :
  enrich_line factors_db r = Ok r' ->
  exists qty factor,
    quantity_of r = Ok qty
    /\ get_emission_factor (description_of r) factors_db = Ok factor
    /\ r' = enrich r factor qty.
Proof.
  unfold enrich_line.
  destruct (quantity_of r) as [qty|e]; cbn [bind]; [|discriminate].
  destruct (get_emission_factor _ factors_db) as [factor|e]; cbn [bind]; [|discriminate].
  intros [= <-]. now exists qty, factor.
Qed.

Lemma enrich_all_none_length (factors_db : list row) (h : heap)
    (invoice_data : list loc) :
  snd (enrich_all factors_db h invoice_data) = None ->
  List.length (fst (enrich_all factors_db h invoice_data)) = List.length invoice_data.
Proof.
  induction invoice_data as [|l rest IH]; [reflexivity|].
  cbn [enrich_all]. destruct (enrich_line factors_db (deref h l)); [|discriminate].
  destruct (enrich_all factors_db h rest) as [rs e]. cbn [fst snd] in *.
  intros He. simpl. now rewrite (IH He).
Qed.

Lemma nth_error_seq_lt (a n i : nat) : i < n -> nth_error (seq a n) i = Some (a + i).
Proof.
  revert a i. induction n as [|n IH]; intros a i Hi; [lia|].
  destruct i as [|i]; simpl; [f_equal; lia|].
  rewrite IH by lia. f_equal. lia.
Qed.

Lemma enrich_line_text (factors_db : list row) (r : row) :
  forallb well_formed_entry factors_db = true ->
  is_text (description_of r) = true ->
  exists r', enrich_line factors_db r = Ok r'.
Proof.
  intros Hwf Htext. unfold enrich_line.
  destruct (quantity_of_total r) as [qty ->]. cbn [bind].
  destruct (description_of r) as [d|f]; [|discriminate].
  destruct (get_emission_factor_total d factors_db Hwf) as [factor ->].
  eexists. reflexivity.
Qed.

(** the quantity the calculator uses, read off the line's [quantity] field *)
Lemma quantity_of_field (r : row) :
  quantity_of r
  = Ok match Py.get r "quantity" with
       | Some v =>
           match py_float v with
           | Ok q => q
           | Raise _ => 1%float
           end
       | None => 1%float
       end.
Proof.
  unfold quantity_of. destruct (Py.get r "quantity") as [[s|f]|]; simpl;
    try reflexivity.
  destruct (Py.float_of_str s); reflexivity.
Qed.

Lemma description_of_field (r : row) :
  description_of r
  = match Py.get r "item_description" with
    | Some d => d
    | None => VStr "Unknown"
    end.
Proof. reflexivity. Qed.

Lemma description_text_or_absent_is_text (r : row) :
  description_text_or_absent r = true -> is_text (description_of r) = true.
Proof.
  unfold description_text_or_absent, description_of.
  now destruct (Py.get r "item_description") as [[s|f]|].
Qed.

(** C7: with a well-formed table and lines whose [item_description], when
    present, is text, the calculator returns one new record per line, in
    the order of the lines.  The record for the i-th line holds, as
    [matched_factor], the factor the matcher returns for the line's
    [item_description] field ("Unknown" when the line has none) and, as
    [total_line_co2], that factor multiplied by the line's [quantity] field
    parsed as a float ([1.0] when it is absent or does not parse), next to
    the line's own fields. *)
Theorem calculation_keeps_order (invoice_data : list loc)
    (factors_db : list row) (h : heap) :
  forallb well_formed_entry factors_db = true ->
  forallb (fun l => l <? List.length h) invoice_data = true ->
  forallb (fun l => description_text_or_absent (deref h l)) invoice_data = true ->
  exists out h',
    calculate_invoice_emissions invoice_data factors_db h = (Ok out, h')
    /\ List.length out = List.length invoice_data
    /\ forall i l, nth_error invoice_data i = Some l ->
         exists l' factor,
           nth_error out i = Some l'
           /\ get_emission_factor
                match Py.get (deref h l) "item_description" with
                | Some d => d
                | None => VStr "Unknown"
                end factors_db = Ok factor
           /\ Py.get (deref h' l') "matched_factor" = Some (VFloat factor)
           /\ Py.get (deref h' l') "total_line_co2"
              = Some (VFloat (match Py.get (deref h l) "quantity" with
                              | Some v =>
                                  match py_float v with
                                  | Ok q => q
                                  | Raise _ => 1
                                  end
                              | None => 1
                              end * factor)%float)
           /\ forall k, derived_field k = false ->
                Py.get (deref h' l') k = Py.get (deref h l) k.
Proof.
  intros Hwf Hal Htext.
  destruct (enrich_all_ok factors_db h invoice_data) as (He & Hlen & Hnth).
  { intros l Hl. apply enrich_line_text; [exact Hwf|].
    apply description_text_or_absent_is_text.
    rewrite forallb_forall in Htext. now apply Htext. }
  rewrite (calculate_invoice_emissions_spec _ _ _ Hal), He.
  eexists _, _. split; [reflexivity|].
  split; [now rewrite length_seq|].
  intros i l Hi.
  assert (Hlt : i < List.length invoice_data)
    by (apply nth_error_Some; congruence).
  destruct (enrich_line_inv _ _ _ (Hnth i l Hi)) as (qty & factor & Hq & Hf & Hr).
  rewrite quantity_of_field in Hq. injection Hq as Hq.
  rewrite description_of_field in Hf.
  exists (List.length h + i), factor.
  split; [apply nth_error_seq_lt; now rewrite Hlen|].
  split; [exact Hf|].
  rewrite deref_app_new, Hr, Hq.
  split; [apply get_enrich_factor|]. split; [apply get_enrich_total|].
  intros k Hk. now apply get_enrich_other.
Qed.

Lemma calculation_keeps_order_witness :
  forallb well_formed_entry demo_db = true
  /\ forallb (fun l => l <? List.length demo_invoice) [0; 1; 2] = true
  /\ forallb (fun l => description_text_or_absent (deref demo_invoice l)) [0; 1; 2] = true
  /\ exists out h',
       calculate_invoice_emissions [0; 1; 2] demo_db demo_invoice = (Ok out, h')
       /\ List.length out = 3
       /\ exists l' factor,
            nth_error out 2 = Some l'
            /\ get_emission_factor (VStr "coffe latte") demo_db = Ok factor
            /\ Py.get (deref h' l') "matched_factor" = Some (VFloat factor)
            /\ Py.get (deref h' l') "total_line_co2"
               = Some (VFloat (3 * factor)%float).
Proof.
  split; [reflexivity|]. split; [reflexivity|]. split; [reflexivity|].
  destruct (calculation_keeps_order [0; 1; 2] demo_db demo_invoice
              eq_refl eq_refl eq_refl) as (out & h' & Hcalc & Hlen & Hall).
  exists out, h'. split; [exact Hcalc|]. split; [exact Hlen|].
  destruct (Hall 2 2 eq_refl) as (l' & factor & Hl' & Hf & Hmf & Htotal & _).
  exists l', factor. split; [exact Hl'|]. split; [exact Hf|].
  split; [exact Hmf | exact Htotal].
Defined.

(** the run of the calculator on [demo_invoice] *)
Example demo_calculation :
  calculate_invoice_emissions [0; 1; 2] demo_db demo_invoice
  = (Ok [3; 4; 5],
     demo_invoice ++
     [ [("item_description", VStr "Laptop"); ("quantity", VStr "2");
        ("matched_factor", VFloat 250); ("total_line_co2", VFloat 500)];
       [("quantity", VStr "two"); ("supplier", VStr "ACME");
        ("matched_factor", VFloat 0); ("total_line_co2", VFloat 0)];
       [("item_description", VStr "coffe latte"); ("quantity", VStr "3");
        ("matched_factor", VFloat 5); ("total_line_co2", VFloat 15)] ]).
Proof. vm_compute. reflexivity. Qed.

(** C8, as the code has it: the calculator only allocates: every object
    that was in the store is as it was, the input lines included; each
    emitted record is a new object that holds the line's fields other than
    [matched_factor] and [total_line_co2] with their values, and under
    these two names the derived values, whatever the line held there: the
    factor the matcher returns for the line's [item_description] ("Unknown"
    when absent) and that factor times the line's parsed [quantity] ([1.0]
    when absent or unparsable). *)
Theorem calculation_frame (invoice_data : list loc) (factors_db : list row)
    (h : heap) :
  forallb (fun l => l <? List.length h) invoice_data = true ->
  (exists added,
     snd (calculate_invoice_emissions invoice_data factors_db h) = h ++ added)
  /\ (forall l, l < List.length h ->
        deref (snd (calculate_invoice_emissions invoice_data factors_db h)) l
        = deref h l)
  /\ forall out,
       fst (calculate_invoice_emissions invoice_data factors_db h) = Ok out ->
       forall i l, nth_error invoice_data i = Some l ->
         exists l' factor,
           nth_error out i = Some l'
           /\ List.length h <= l'
           /\ (forall k, derived_field k = false ->
                 Py.get (deref (snd (calculate_invoice_emissions
                                       invoice_data factors_db h)) l') k
                 = Py.get (deref h l) k)
           /\ get_emission_factor
                match Py.get (deref h l) "item_description" with
                | Some d => d
                | None => VStr "Unknown"
                end factors_db = Ok factor
           /\ Py.get (deref (snd (calculate_invoice_emissions
                                    invoice_data factors_db h)) l') "matched_factor"
              = Some (VFloat factor)
           /\ Py.get (deref (snd (calculate_invoice_emissions
                                    invoice_data factors_db h)) l') "total_line_co2"
              = Some (VFloat (match Py.get (deref h l) "quantity" with
                              | Some v =>
                                  match py_float v with
                                  | Ok q => q
                                  | Raise _ => 1
                                  end
                              | None => 1
                              end * factor)%float).
Proof.
  intros Hal. rewrite (calculate_invoice_emissions_spec _ _ _ Hal). cbn [fst snd].
  split; [eexists; reflexivity|].
  split; [intros l Hl; now apply deref_app_old|].
  intros out Hout i l Hi.
  destruct (snd (enrich_all factors_db h invoice_data)) as [e|] eqn:He; [discriminate|].
  injection Hout as <-.
  pose proof (enrich_all_none_length _ _ _ He) as Hlen.
  assert (Hlt : i < List.length invoice_data)
    by (apply nth_error_Some; congruence).
  assert (Hrow := enrich_all_upto factors_db h invoice_data i l Hi).
  rewrite Hlen in Hrow. specialize (Hrow Hlt).
  destruct (enrich_line_inv _ _ _ Hrow) as (qty & factor & Hq & Hf & Hr).
  rewrite quantity_of_field in Hq. injection Hq as Hq.
  rewrite description_of_field in Hf.
  exists (List.length h + i), factor.
  split; [apply nth_error_seq_lt; now rewrite Hlen|].
  split; [lia|]. rewrite deref_app_new, Hr, Hq.
  split; [intros k Hk; now apply get_enrich_other|].
  split; [exact Hf|].
  split; [apply get_enrich_factor | apply get_enrich_total].
Qed.

Lemma calculation_frame_witness :
  forallb (fun l => l <? List.length clash_invoice) [0] = true
  /\ (forall l, l < List.length clash_invoice ->
        deref (snd (calculate_invoice_emissions [0] demo_db clash_invoice)) l
        = deref clash_invoice l)
  /\ Py.get (deref clash_invoice 0) "matched_factor" = Some (VStr "n/a")
  /\ exists l' factor,
       nth_error [1] 0 = Some l'
       /\ get_emission_factor (VStr "Laptop") demo_db = Ok factor
       /\ Py.get (deref (snd (calculate_invoice_emissions [0] demo_db clash_invoice)) l')
                 "matched_factor"
          = Some (VFloat factor)
       /\ Py.get (deref (snd (calculate_invoice_emissions [0] demo_db clash_invoice)) l')
                 "total_line_co2"
          = Some (VFloat (1 * factor)%float).
Proof.
  split; [reflexivity|].
  destruct (calculation_frame [0] demo_db clash_invoice eq_refl)
    as (_ & Hframe & Hout).
  split; [exact Hframe|]. split; [reflexivity|].
  assert (Hfst : fst (calculate_invoice_emissions [0] demo_db clash_invoice) = Ok [1])
    by (vm_compute; reflexivity).
  destruct (Hout [1] Hfst 0 0 eq_refl)
    as (l' & factor & Hl' & _ & _ & Hf & Hmf & Htotal).
  exists l', factor. split; [exact Hl'|]. split; [exact Hf|].
  split; [exact Hmf | exact Htotal].
Defined.

(** C8 as stated fails: a line that already has a field [matched_factor]
    loses its value, the emitted record holds the matched factor there. *)
Lemma derived_field_overwrites_original :
  ~ emits_every_original_field [0] demo_db clash_invoice.
Proof.
  intros H.
  destruct (calculate_invoice_emissions [0] demo_db clash_invoice) as [r h'] eqn:E.
  vm_compute in E. injection E as <- <-.
  specialize (H _ _ eq_refl 0 0 1 "matched_factor" (VStr "n/a") eq_refl eq_refl eq_refl).
  vm_compute in H. discriminate H.
Qed.

(** C9: a line without [item_description] is matched as "Unknown"; a line
    whose [quantity] is absent or does not parse counts with quantity [1.0],
    a quantity that parses counts as parsed; reading the quantity never
    raises, and these are the description and the quantity the calculator
    uses for the line. *)
Theorem invoice_line_defaults (factors_db : list row) (h : heap) (l : loc) :
  (Py.get (deref h l) "item_description" = None ->
     description_of (deref h l) = VStr "Unknown")
  /\ (Py.get (deref h l) "quantity" = None ->
        quantity_of (deref h l) = Ok 1%float)
  /\ (forall v, Py.get (deref h l) "quantity" = Some v ->
        py_float v = Raise ValueError -> quantity_of (deref h l) = Ok 1%float)
  /\ (forall v q, Py.get (deref h l) "quantity" = Some v ->
        py_float v = Ok q -> quantity_of (deref h l) = Ok q)
  /\ exists qty,
       quantity_of (deref h l) = Ok qty
       /\ calculate_invoice_emissions [l] factors_db h
          = match get_emission_factor (description_of (deref h l)) factors_db with
            | Ok factor =>
                (Ok [List.length h], h ++ [enrich (deref h l) factor qty])
            | Raise e => (Raise e, h)
            end.
Proof.
  split; [|split; [|split; [|split]]].
  - unfold description_of. now intros ->.
  - unfold quantity_of. now intros ->.
  - unfold quantity_of. now intros v -> ->.
  - unfold quantity_of. now intros v q -> ->.
  - destruct (quantity_of_total (deref h l)) as [qty Hq]. exists qty.
    split; [exact Hq|].
    unfold calculate_invoice_emissions. cbn [process_rows].
    rewrite process_row_spec. unfold enrich_line. rewrite Hq. cbn [bind].
    destruct (get_emission_factor _ factors_db); reflexivity.
Qed.

(** the line of [demo_invoice] without description and with the quantity
    "two" is matched as "Unknown" and counted once *)
Example defaults_on_demo_line :
  description_of (deref demo_invoice 1) = VStr "Unknown"
  /\ quantity_of (deref demo_invoice 1) = Ok 1%float.
Proof. split; vm_compute; reflexivity. Qed.

(* ================================================================= *)
(** ** Rows the core does not absorb *)

(** C5 at a reference row without its factor field: the lookup of the
    field raises [KeyError], which the [except ValueError] around it does
    not catch, so the matcher and the calculator raise. *)
Theorem missing_factor_field_raises :
  add_entry [] [("category", VStr "laptop")]
  = Raise (KeyError "factor_kg_co2_per_unit")
  /\ get_emission_factor (VStr "Laptop") short_row_db
     = Raise (KeyError "factor_kg_co2_per_unit")
  /\ fst (calculate_invoice_emissions [0; 1; 2] short_row_db demo_invoice)
     = Raise (KeyError "factor_kg_co2_per_unit").
Proof. split; [|split]; vm_compute; reflexivity. Qed.

(** the same for a row without its category *)
Example missing_category_field_raises :
  get_emission_factor (VStr "Laptop") [[("factor_kg_co2_per_unit", VStr "250.0")]]
  = Raise (KeyError "category").
Proof. vm_compute. reflexivity. Qed.

(** With an empty reference table nothing matches. *)
Lemma empty_table_no_match (desc : string) :
  get_emission_factor (VStr desc) [] = Ok 0%float.
Proof.
  unfold get_emission_factor.
  rewrite (get_emission_factor_with_built _ desc [] [] eq_refl). simpl.
  induction (Py.split (Py.strip (Py.lower desc))) as [|w ws IH]; [reflexivity|].
  exact IH.
Qed.

(** With an empty table and the quantity [inf] the line total is
    [inf * 0.0], which is not a number, and so is the report's total. *)
Example empty_table_infinite_quantity :
  exists out h' rep,
    calculate_invoice_emissions [0] [] infinite_quantity_invoice = (Ok out, h')
    /\ generate_text_report (map (deref h') out) = Ok rep
    /\ (total_co2 rep =? total_co2 rep)%float = false
    /\ unmatched_count rep = 1.
Proof.
  eexists _, _, _. split; [vm_compute; reflexivity|].
  split; [vm_compute; reflexivity|]. split; vm_compute; reflexivity.
Qed.

(* ================================================================= *)
(** ** [matching_size] has fuel enough

    A block found in [a] ends inside [a], so both slices that remain are
    strictly shorter and [len(a)] rounds of recursion suffice. *)

Lemma scan_row_bound (pop : ascii -> bool) (x : ascii) (i : nat)
    (bs : list ascii) (j : nat) (prev : list nat) (diag : nat)
    (best : difflib.Match) :
  diag <= i -> Forall (fun v => v <= i) prev -> match_end best <= S i ->
  Forall (fun v => v <= S i) (fst (difflib.scan_row pop x i j bs prev diag best))
  /\ match_end (snd (difflib.scan_row pop x i j bs prev diag best)) <= S i.
Proof.
  revert j prev diag best.
  induction bs as [|y bs IH]; intros j prev diag best Hd Hprev Hbest.
  - simpl. split; [constructor | exact Hbest].
  - cbn [difflib.scan_row].
    set (k := if Ascii.eqb x y && negb (pop y) then S diag else 0).
    assert (Hk : k <= S i) by (unfold k; destruct (_ && _); lia).
    clearbody k.
    set (best' := let '(_, _, bestsize) := best in
                  if bestsize <? k then (S i - k, S j - k, k) else best).
    assert (Hbest' : match_end best' <= S i).
    { unfold best'. destruct best as [[bi bj] bk].
      destruct (bk <? k); [unfold match_end; lia | exact Hbest]. }
    clearbody best'.
    assert (Htl : Forall (fun v => v <= i) (tl prev))
      by (destruct prev; [constructor | now inversion Hprev]).
    assert (Hhd : hd 0 prev <= i)
      by (destruct prev; [simpl; lia | now inversion Hprev]).
    destruct (IH (S j) (tl prev) (hd 0 prev) best' Hhd Htl Hbest') as [Hrow Hend].
    destruct (difflib.scan_row pop x i (S j) bs (tl prev) (hd 0 prev) best')
      as [row best''].
    cbn [fst snd] in *. split; [constructor; assumption | exact Hend].
Qed.

Lemma scan_rows_bound (pop : ascii -> bool) (a_rest b : list ascii) (i : nat)
    (j2len : list nat) (best : difflib.Match) :
  Forall (fun v => v <= i) j2len -> match_end best <= i ->
  match_end (difflib.scan_rows pop i a_rest b j2len best) <= i + List.length a_rest.
Proof.
  revert i j2len best.
  induction a_rest as [|x a' IH]; intros i j2len best Hrow Hbest.
  - simpl. lia.
  - cbn [difflib.scan_rows].
    destruct (scan_row_bound pop x i b 0 j2len 0 best) as [Hrow' Hbest'];
      [lia | exact Hrow | lia |].
    destruct (difflib.scan_row pop x i 0 b j2len 0 best) as [row best'].
    cbn [fst snd] in *. specialize (IH (S i) row best' Hrow' Hbest').
    simpl. lia.
Qed.

Lemma extend_left_end (a b : list ascii) (besti bestj bestsize : nat) :
  match_end (difflib.extend_left a b besti bestj bestsize) = besti + bestsize.
Proof.
  revert bestj bestsize.
  induction besti as [|i IH]; intros bestj bestsize; [reflexivity|].
  destruct bestj as [|j]; [reflexivity|]. cbn [difflib.extend_left].
  destruct (nth_error a i) as [x|]; [|reflexivity].
  destruct (nth_error b j) as [y|]; [|reflexivity].
  destruct (Ascii.eqb x y); [|reflexivity].
  rewrite IH. lia.
Qed.

Lemma common_prefix_le (a b : list ascii) :
  difflib.common_prefix a b <= List.length a.
Proof.
  revert b. induction a as [|x a IH]; intros b; simpl; [lia|].
  destruct b as [|y b]; [lia|]. destruct (Ascii.eqb x y); [|lia].
  specialize (IH b). lia.
Qed.

Lemma find_longest_match_end (pop : ascii -> bool) (a b : list ascii) :
  match_end (difflib.find_longest_match pop a b) <= List.length a.
Proof.
  unfold difflib.find_longest_match.
  pose proof (scan_rows_bound pop a b 0 [] (0, 0, 0) (Forall_nil _) (Nat.le_refl 0))
    as Hscan.
  destruct (difflib.scan_rows pop 0 a b [] (0, 0, 0)) as [[bi bj] bk].
  pose proof (extend_left_end a b bi bj bk) as Hext.
  destruct (difflib.extend_left a b bi bj bk) as [[bi' bj'] bk'].
  simpl in *.
  pose proof (common_prefix_le (skipn (bi' + bk') a) (skipn (bj' + bk') b)) as Hcp.
  rewrite length_skipn in Hcp. lia.
Qed.

Lemma matching_size_fuel (pop : ascii -> bool) (fuel1 fuel2 : nat)
    (a b : list ascii) :
  List.length a <= fuel1 -> List.length a <= fuel2 ->
  difflib.matching_size fuel1 pop a b = difflib.matching_size fuel2 pop a b.
Proof.
  revert fuel2 a b.
  induction fuel1 as [|f1 IH]; intros fuel2 a b H1 H2.
  - destruct a; [|simpl in H1; lia].
    destruct fuel2; [reflexivity|]. reflexivity.
  - destruct fuel2 as [|f2].
    + destruct a; [|simpl in H2; lia]. reflexivity.
    + cbn [difflib.matching_size].
      pose proof (find_longest_match_end pop a b) as Hend.
      destruct (difflib.find_longest_match pop a b) as [[i j] k].
      simpl in Hend. destruct (k =? 0) eqn:Ek; [reflexivity|].
      apply Nat.eqb_neq in Ek.
      rewrite (IH f2 (firstn i a) (firstn j b))
        by (rewrite length_firstn; lia).
      rewrite (IH f2 (skipn (i + k) a) (skipn (j + k) b))
        by (rewrite length_skipn; lia).
      reflexivity.
Qed.

(** more fuel than [len(a)] changes nothing *)
Lemma matching_size_enough_fuel (pop : ascii -> bool) (fuel : nat)
    (a b : list ascii) :
  List.length a <= fuel ->
  difflib.matching_size fuel pop a b
  = difflib.matching_size (List.length a) pop a b.
Proof. intros H. apply matching_size_fuel; [exact H | apply Nat.le_refl]. Qed.

(* ================================================================= *)
(** * Further properties of the code *)

(** ** The index: failure and key order *)

Lemma add_entry_malformed (factor_map : Py.dict float) (e : row) :
  well_formed_entry e = false -> add_entry factor_map e = Raise (entry_error e).
Proof.
  unfold well_formed_entry, add_entry, entry_error, Py.getitem.
  destruct (Py.get e "category") as [[s|f]|]; try reflexivity.
  destruct (Py.get e "factor_kg_co2_per_unit") as [v|]; [discriminate|].
  reflexivity.
Qed.

Lemma build_factor_map_malformed (good rest : list row) (bad : row)
    (fm0 : Py.dict float) :
  forallb well_formed_entry good = true -> well_formed_entry bad = false ->
  build_factor_map (good ++ bad :: rest) fm0 = Raise (entry_error bad).
Proof.
  intros Hgood Hbad. rewrite build_factor_map_app.
  destruct (build_factor_map_spec good fm0 Hgood) as (fm & -> & _).
  cbn [bind build_factor_map]. now rewrite (add_entry_malformed fm bad Hbad).
Qed.

Lemma index_build_raises (desc : string) (good rest : list row) (bad : row) :
  forallb well_formed_entry good = true ->
  well_formed_entry bad = false ->
  build_factor_map (good ++ bad :: rest) [] = Raise (entry_error bad)
  /\ get_emission_factor (VStr desc) (good ++ bad :: rest) = Raise (entry_error bad).
Proof.
  intros Hgood Hbad.
  pose proof (build_factor_map_malformed good rest bad [] Hgood Hbad) as Hb.
  split; [exact Hb|].
  unfold get_emission_factor, get_emission_factor_with. cbn [lower_strip bind].
  now rewrite Hb.
Qed.

(** X1: when the records before [bad] carry both fields and [bad] does not,
    building the index raises the exception of [bad] (a [KeyError] naming
    the missing field), whatever follows, and so does the matcher for every
    description. *)
Theorem index_fails_at_first_malformed_record (good rest : list row) (bad : row)
    (desc : string) :
  forallb well_formed_entry good = true ->
  well_formed_entry bad = false ->
  build_factor_map (good ++ bad :: rest) [] = Raise (entry_error bad)
  /\ get_emission_factor (VStr desc) (good ++ bad :: rest) = Raise (entry_error bad).
Proof.
  intros Hgood Hbad.
  pose proof (build_factor_map_malformed good rest bad [] Hgood Hbad) as Hb.
  split; [exact Hb|].
  unfold get_emission_factor, get_emission_factor_with. cbn [lower_strip bind].
  now rewrite Hb.
Qed.

Lemma index_fails_at_first_malformed_record_witness :
  forallb well_formed_entry demo_db = true
  /\ well_formed_entry [("category", VStr "laptop")] = false
  /\ get_emission_factor (VStr "Laptop") (demo_db ++ [("category", VStr "laptop")] :: demo_db)
     = Raise (KeyError "factor_kg_co2_per_unit").
Proof.
  split; [reflexivity|]. split; [reflexivity|].
  exact (proj2 (index_fails_at_first_malformed_record demo_db demo_db
                  [("category", VStr "laptop")] "Laptop" eq_refl eq_refl)).
Defined.

Lemma existsb_eqb_In (k : string) (l : list string) :
  existsb (String.eqb k) l = true <-> In k l.
Proof.
  rewrite existsb_exists. split.
  - intros (x & Hx & E). apply String.eqb_eq in E. now subst.
  - intros H. exists k. split; [exact H | apply String.eqb_refl].
Qed.

Lemma build_factor_map_keys (factors_db : list row) (fm0 : Py.dict float) :
  forallb well_formed_entry factors_db = true ->
  exists factor_map,
    build_factor_map factors_db fm0 = Ok factor_map
    /\ Py.keys factor_map
       = Py.keys fm0 ++ first_occurrences (Py.keys fm0) (parsed_keys factors_db).
Proof.
  revert fm0. induction factors_db as [|e db IH]; intros fm0 Hwf.
  - exists fm0. simpl. now rewrite app_nil_r.
  - simpl in Hwf. apply andb_true_iff in Hwf as [He Hdb].
    cbn [build_factor_map]. rewrite (add_entry_well_formed fm0 e He). cbn [bind].
    unfold parsed_keys. cbn [filter]. unfold factor_parses at 1.
    destruct (entry_factor e) as [f|].
    + destruct (IH (Py.setitem fm0 (entry_key e) f) Hdb) as (fm & Hb & Hk).
      exists fm. split; [exact Hb|]. rewrite Hk. cbn [map first_occurrences].
      destruct (keys_setitem_eq fm0 (entry_key e) f) as [[Hin ->] | [Hnin ->]].
      * apply existsb_eqb_In in Hin. now rewrite Hin.
      * destruct (existsb (String.eqb (entry_key e)) (Py.keys fm0)) eqn:E.
        -- apply existsb_eqb_In in E. contradiction.
        -- now rewrite <- app_assoc.
    + exact (IH fm0 Hdb).
Qed.

(** X2: the keys of the index stand in the order in which the normalized
    categories first appear among the records whose factor parses; a later
    record of the same category changes the value, not the position. *)
Theorem index_keys_in_order_of_first_appearance (factors_db : list row) :
  forallb well_formed_entry factors_db = true ->
  exists factor_map,
    build_factor_map factors_db [] = Ok factor_map
    /\ Py.keys factor_map = first_occurrences [] (parsed_keys factors_db)
    /\ forall k, Py.get factor_map k = last_write factors_db k.
Proof.
  intros Hwf.
  destruct (build_factor_map_keys factors_db [] Hwf) as (fm & Hb & Hk).
  destruct (build_factor_map_spec factors_db [] Hwf) as (fm' & Hb' & Hget & _).
  rewrite Hb in Hb'. injection Hb' as <-.
  exists fm. split; [exact Hb|]. split; [exact Hk|].
  intros k. rewrite Hget. now destruct (last_write factors_db k).
Qed.

Lemma index_keys_in_order_of_first_appearance_witness :
  forallb well_formed_entry demo_db = true
  /\ exists factor_map,
       build_factor_map demo_db [] = Ok factor_map
       /\ Py.keys factor_map = ["laptop"; "coffee"; "paper"]
       /\ Py.get factor_map "coffee" = Some 5%float.
Proof.
  split; [reflexivity|].
  destruct (index_keys_in_order_of_first_appearance demo_db eq_refl)
    as (fm & Hb & Hk & Hget).
  exists fm. split; [exact Hb|]. split; [exact Hk | exact (Hget "coffee")].
Defined.

(** ** The matcher: where a factor can come from *)

Lemma keyword_match_some_inv (known : list string) (factor_map : Py.dict float)
    (clean_desc : string) (r : result float) :
  keyword_match known factor_map clean_desc = Some r ->
  exists k, In k known /\ Py.contains k clean_desc = true
            /\ r = Py.getitem factor_map k.
Proof.
  induction known as [|c known IH]; simpl; [discriminate|].
  destruct (Py.contains c clean_desc) eqn:E.
  - intros [= <-]. exists c. auto.
  - intros H. destruct (IH H) as (k & Hk & Hc & Hr). exists k. auto.
Qed.

Lemma keyword_match_none_inv (known : list string) (factor_map : Py.dict float)
    (clean_desc : string) :
  keyword_match known factor_map clean_desc = None ->
  forall k, In k known -> Py.contains k clean_desc = false.
Proof.
  induction known as [|c known IH]; simpl; [intros _ k []|].
  destruct (Py.contains c clean_desc) eqn:E; [discriminate|].
  intros H k [<- | Hk]; [exact E | now apply IH].
Qed.

Lemma get_close_matches_cons_inv (word : string) (possibilities : list string)
    (cutoff : float) (best : string) (others : list string) :
  difflib.get_close_matches word possibilities cutoff = best :: others ->
  others = [] /\ In best possibilities
  /\ difflib.close_enough word cutoff best = true.
Proof.
  unfold difflib.get_close_matches.
  destruct (difflib.scored word cutoff possibilities) as [|p rest] eqn:E; [discriminate|].
  intros [= <- <-]. split; [reflexivity|].
  pose proof (max_from_In rest p) as H. rewrite <- E in H.
  apply scored_In in H. tauto.
Qed.

Lemma get_close_matches_nil_inv (word : string) (possibilities : list string)
    (cutoff : float) :
  difflib.get_close_matches word possibilities cutoff = [] ->
  forall x, In x possibilities -> difflib.close_enough word cutoff x = false.
Proof.
  unfold difflib.get_close_matches.
  destruct (difflib.scored word cutoff possibilities) as [|p rest] eqn:E; [|discriminate].
  intros _ x Hx. destruct (difflib.close_enough word cutoff x) eqn:Hc; [|reflexivity].
  assert (H : In (difflib.ratio x word, x) (difflib.scored word cutoff possibilities))
    by (apply scored_In; simpl; auto).
  rewrite E in H. destruct H.
Qed.

Lemma fuzzy_match_some_inv (words known : list string)
    (factor_map : Py.dict float) (r : result float) :
  fuzzy_match close_matches_07 words known factor_map = Some r ->
  exists w best,
    In w words /\ In best known
    /\ difflib.close_enough w fuzzy_cutoff best = true
    /\ r = Py.getitem factor_map best.
Proof.
  induction words as [|w words IH]; simpl; [discriminate|].
  destruct (close_matches_07 w known) as [|best others] eqn:E.
  - intros H. destruct (IH H) as (w' & b & Hw & Hb & Hc & Hr).
    exists w', b. auto.
  - intros [= <-]. unfold close_matches_07 in E.
    apply get_close_matches_cons_inv in E as (_ & Hb & Hc).
    exists w, best. auto.
Qed.

Lemma fuzzy_match_none_inv (words known : list string)
    (factor_map : Py.dict float) :
  fuzzy_match close_matches_07 words known factor_map = None ->
  forall w k, In w words -> In k known ->
    difflib.close_enough w fuzzy_cutoff k = false.
Proof.
  induction words as [|w0 words IH]; simpl; [intros _ w k []|].
  destruct (close_matches_07 w0 known) as [|best others] eqn:E; [|discriminate].
  intros H w k [<- | Hw] Hk.
  - exact (get_close_matches_nil_inv _ _ _ E k Hk).
  - now apply IH.
Qed.

(** X3: the matcher never invents a factor.  Once the index is built, the
    result is the factor stored under a key that occurs in the normalized
    description or that passes the cutoff for one of its words; and it is
    the fallback [0.0] only when no key does either. *)
Theorem factor_comes_from_a_related_key (desc : string) (factors_db : list row)
    (factor_map : Py.dict float) :
  build_factor_map factors_db [] = Ok factor_map ->
  (exists k f,
     In k (Py.keys factor_map) /\ Py.get factor_map k = Some f
     /\ get_emission_factor (VStr desc) factors_db = Ok f
     /\ (is_substring k (Py.strip (Py.lower desc))
         \/ exists w, In w (Py.split (Py.strip (Py.lower desc)))
                      /\ difflib.close_enough w fuzzy_cutoff k = true))
  \/ (get_emission_factor (VStr desc) factors_db = Ok 0%float
      /\ (forall k, In k (Py.keys factor_map) ->
            ~ is_substring k (Py.strip (Py.lower desc)))
      /\ forall w k, In w (Py.split (Py.strip (Py.lower desc))) ->
           In k (Py.keys factor_map) ->
           difflib.close_enough w fuzzy_cutoff k = false).
Proof.
  intros Hb. unfold get_emission_factor.
  rewrite (get_emission_factor_with_built _ desc factors_db factor_map Hb).
  destruct (keyword_match _ _ _) as [r|] eqn:Ek.
  - left. apply keyword_match_some_inv in Ek as (k & Hk & Hc & ->).
    destruct (getitem_key _ _ Hk) as (f & Hget & Hitem).
    exists k, f. repeat split; auto. left. now apply contains_spec.
  - destruct (fuzzy_match _ _ _ _) as [r|] eqn:Ef.
    + left. apply fuzzy_match_some_inv in Ef as (w & best & Hw & Hbest & Hc & ->).
      destruct (getitem_key _ _ Hbest) as (f & Hget & Hitem).
      exists best, f. repeat split; auto. right. now exists w.
    + right. split; [reflexivity|]. split.
      * intros k Hk Hs. apply contains_spec in Hs.
        rewrite (keyword_match_none_inv _ _ _ Ek k Hk) in Hs. discriminate.
      * exact (fuzzy_match_none_inv _ _ _ Ef).
Qed.

Lemma factor_comes_from_a_related_key_witness :
  build_factor_map demo_db [] = Ok demo_index
  /\ ((exists k f,
         In k (Py.keys demo_index) /\ Py.get demo_index k = Some f
         /\ get_emission_factor (VStr "Coffe to go") demo_db = Ok f)
      \/ get_emission_factor (VStr "Coffe to go") demo_db = Ok 0%float).
Proof.
  split; [exact demo_index_built|].
  destruct (factor_comes_from_a_related_key "Coffe to go" demo_db demo_index
              demo_index_built) as [(k & f & Hk & Hget & Hres & _) | (Hres & _)].
  - left. exists k, f. split; [exact Hk|]. split; [exact Hget | exact Hres].
  - right. exact Hres.
Defined.

(** X4: an empty category in the index matches every description: no
    description is then left unmatched, and when the empty key is the first
    key every description gets its factor. *)
Theorem empty_category_matches_everything (desc : string) (factors_db : list row)
    (factor_map : Py.dict float) :
  build_factor_map factors_db [] = Ok factor_map ->
  In EmptyString (Py.keys factor_map) ->
  (exists k f,
     In k (Py.keys factor_map) /\ Py.get factor_map k = Some f
     /\ is_substring k (Py.strip (Py.lower desc))
     /\ get_emission_factor (VStr desc) factors_db = Ok f)
  /\ (forall rest, Py.keys factor_map = EmptyString :: rest ->
        Py.getitem factor_map EmptyString
        = get_emission_factor (VStr desc) factors_db).
Proof.
  intros Hb Hin. unfold get_emission_factor.
  rewrite (get_emission_factor_with_built _ desc factors_db factor_map Hb).
  split.
  - destruct (keyword_match _ _ _) as [r|] eqn:Ek.
    + apply keyword_match_some_inv in Ek as (k & Hk & Hc & ->).
      destruct (getitem_key _ _ Hk) as (f & Hget & Hitem).
      exists k, f. repeat split; auto. now apply contains_spec.
    + pose proof (keyword_match_none_inv _ _ _ Ek _ Hin) as H.
      rewrite contains_empty_key in H. discriminate.
  - intros rest Hk. rewrite Hk. simpl. now rewrite contains_empty_key.
Qed.

Lemma empty_category_matches_everything_witness :
  build_factor_map blank_category_db [] = Ok [(EmptyString, 5%float)]
  /\ In EmptyString (Py.keys [(EmptyString, 5%float)])
  /\ exists k f,
       Py.get [(EmptyString, 5%float)] k = Some f
       /\ get_emission_factor (VStr "Bus ticket") blank_category_db = Ok f.
Proof.
  assert (Hb : build_factor_map blank_category_db [] = Ok [(EmptyString, 5%float)])
    by (vm_compute; reflexivity).
  assert (Hin : In EmptyString (Py.keys [(EmptyString, 5%float)])) by (now left).
  split; [exact Hb|]. split; [exact Hin|].
  destruct (proj1 (empty_category_matches_everything "Bus ticket" blank_category_db
                     _ Hb Hin)) as (k & f & _ & Hget & _ & Hres).
  exists k, f. split; [exact Hget | exact Hres].
Defined.

(** ** Case and surrounding whitespace do not matter *)

Lemma build_factor_map_same_entries (db1 db2 : list row) (fm0 : Py.dict float) :
  forallb well_formed_entry db1 = true ->
  forallb well_formed_entry db2 = true ->
  map entry_key db1 = map entry_key db2 ->
  map entry_factor db1 = map entry_factor db2 ->
  build_factor_map db1 fm0 = build_factor_map db2 fm0.
Proof.
  revert db2 fm0. induction db1 as [|e1 db1 IH]; intros [|e2 db2] fm0 H1 H2 Hk Hf;
    try discriminate; [reflexivity|].
  simpl in H1, H2. apply andb_true_iff in H1 as [He1 H1], H2 as [He2 H2].
  injection Hk as Hk0 Hk. injection Hf as Hf0 Hf.
  cbn [build_factor_map].
  rewrite (add_entry_well_formed fm0 e1 He1), (add_entry_well_formed fm0 e2 He2).
  rewrite Hk0, Hf0. cbn [bind]. now apply IH.
Qed.

(** X5: the matcher sees a description and the categories only through
    their lowercased, stripped form: two descriptions with the same
    normalized text, against two tables whose records have the same
    normalized categories and the same parsed factors, get the same
    result. *)
Theorem matching_ignores_case_and_padding (d1 d2 : string) (db1 db2 : list row) :
  Py.strip (Py.lower d1) = Py.strip (Py.lower d2) ->
  forallb well_formed_entry db1 = true ->
  forallb well_formed_entry db2 = true ->
  map entry_key db1 = map entry_key db2 ->
  map entry_factor db1 = map entry_factor db2 ->
  get_emission_factor (VStr d1) db1 = get_emission_factor (VStr d2) db2.
Proof.
  intros Hd H1 H2 Hk Hf.
  unfold get_emission_factor, get_emission_factor_with. cbn [lower_strip bind].
  rewrite (build_factor_map_same_entries db1 db2 [] H1 H2 Hk Hf), Hd.
  reflexivity.
Qed.

Lemma matching_ignores_case_and_padding_witness :
  get_emission_factor (VStr "LAPTOP case")
    [[("category", VStr " laptop "); ("factor_kg_co2_per_unit", VStr "250.0")]]
  = get_emission_factor (VStr "laptop case")
      [[("category", VStr "laptop"); ("factor_kg_co2_per_unit", VStr "250")]].
Proof.
  apply matching_ignores_case_and_padding; vm_compute; reflexivity.
Defined.

(* ================================================================= *)
(** ** Calculator and report together *)

Lemma map_deref_new (h : heap) (rows : list row) :
  map (deref (h ++ rows)) (seq (List.length h) (List.length rows)) = rows.
Proof.
  revert h. induction rows as [|r rows IH]; intros h; [reflexivity|].
  cbn [List.length seq map]. f_equal.
  - unfold deref. rewrite app_nth2 by lia. now rewrite Nat.sub_diag.
  - replace (h ++ r :: rows) with ((h ++ [r]) ++ rows)
      by (rewrite <- app_assoc; reflexivity).
    replace (S (List.length h)) with (List.length (h ++ [r]))
      by (rewrite length_app; simpl; lia).
    apply IH.
Qed.

(** the records the calculator returns, read back from the store *)
Lemma calculate_output_rows (invoice_data : list loc) (factors_db : list row)
    (h : heap) :
  forallb (fun l => l <? List.length h) invoice_data = true ->
  snd (enrich_all factors_db h invoice_data) = None ->
  calculate_invoice_emissions invoice_data factors_db h
  = (Ok (seq (List.length h)
             (List.length (fst (enrich_all factors_db h invoice_data)))),
     h ++ fst (enrich_all factors_db h invoice_data))
  /\ map (deref (h ++ fst (enrich_all factors_db h invoice_data)))
         (seq (List.length h)
              (List.length (fst (enrich_all factors_db h invoice_data))))
     = fst (enrich_all factors_db h invoice_data).
Proof.
  intros Hal He. rewrite (calculate_invoice_emissions_spec _ _ _ Hal), He.
  split; [reflexivity | apply map_deref_new].
Qed.

Lemma enrich_all_rows (factors_db : list row) (h : heap) (invoice_data : list loc)
    (r' : row) :
  In r' (fst (enrich_all factors_db h invoice_data)) ->
  exists l, In l invoice_data /\ enrich_line factors_db (deref h l) = Ok r'.
Proof.
  induction invoice_data as [|l0 rest IH]; [intros []|].
  cbn [enrich_all].
  destruct (enrich_line factors_db (deref h l0)) as [r|e] eqn:E; [|intros []].
  destruct (enrich_all factors_db h rest) as [rs e]. cbn [fst] in *.
  intros [<- | Hin].
  - exists l0. split; [now left | exact E].
  - destruct (IH Hin) as (l & Hl & Hr). exists l. split; [now right | exact Hr].
Qed.

Lemma enriched_enrich (r : row) (factor qty : float) :
  Py.get r "item_description" <> None -> enriched (enrich r factor qty) = true.
Proof.
  intros Hd. unfold enriched.
  rewrite (get_enrich_other r factor qty "item_description" eq_refl).
  rewrite get_enrich_factor, get_enrich_total.
  destruct (Py.get r "item_description"); [reflexivity | contradiction].
Qed.

Lemma has_text_description_is_text (r : row) :
  has_text_description r = true ->
  is_text (description_of r) = true /\ Py.get r "item_description" <> None.
Proof.
  unfold has_text_description, description_of.
  destruct (Py.get r "item_description") as [[s|f]|]; try discriminate.
  intros _. split; [reflexivity | discriminate].
Qed.

(** X6: when every reference record carries both fields and every invoice
    line carries a text [item_description], the calculator's records meet
    what the report reads: calculation followed by the report raises
    nothing, the report's total is the sum over the returned records and
    its warning count the number of records with factor [0.0]. *)
Theorem report_on_calculated_lines (invoice_data : list loc)
    (factors_db : list row) (h : heap) :
  forallb well_formed_entry factors_db = true ->
  forallb (fun l => l <? List.length h) invoice_data = true ->
  forallb (fun l => has_text_description (deref h l)) invoice_data = true ->
  exists final_data h' rep,
    calculate_invoice_emissions invoice_data factors_db h = (Ok final_data, h')
    /\ List.length final_data = List.length invoice_data
    /\ forallb enriched (map (deref h') final_data) = true
    /\ calculate_and_report invoice_data factors_db h = Ok rep
    /\ total_co2 rep = sum_co2 (map (deref h') final_data)
    /\ unmatched_count rep = List.length (unmatched (map (deref h') final_data)).
Proof.
  intros Hwf Hal Hdesc. rewrite forallb_forall in Hdesc.
  destruct (enrich_all_ok factors_db h invoice_data) as (He & Hlen & _).
  { intros l Hl. apply enrich_line_text; [exact Hwf|].
    now apply has_text_description_is_text, Hdesc. }
  destruct (calculate_output_rows _ _ _ Hal He) as [Hcalc Hrows].
  assert (Hen : forallb enriched (fst (enrich_all factors_db h invoice_data)) = true).
  { apply forallb_forall. intros r' Hr'.
    destruct (enrich_all_rows _ _ _ _ Hr') as (l & Hl & Hline).
    destruct (enrich_line_inv _ _ _ Hline) as (qty & factor & _ & _ & ->).
    apply enriched_enrich. now apply has_text_description_is_text, Hdesc. }
  destruct (generate_text_report_enriched _ Hen) as (item & val & Hrep & _).
  eexists _, _, _. split; [exact Hcalc|].
  split; [now rewrite length_seq|].
  rewrite Hrows. split; [exact Hen|].
  unfold calculate_and_report. rewrite Hcalc, Hrows.
  split; [exact Hrep|]. split; reflexivity.
Qed.

Lemma report_on_calculated_lines_witness :
  forallb well_formed_entry demo_db = true
  /\ forallb (fun l => l <? List.length demo_invoice) [0; 2] = true
  /\ forallb (fun l => has_text_description (deref demo_invoice l)) [0; 2] = true
  /\ exists rep, calculate_and_report [0; 2] demo_db demo_invoice = Ok rep.
Proof.
  split; [reflexivity|]. split; [reflexivity|]. split; [reflexivity|].
  destruct (report_on_calculated_lines [0; 2] demo_db demo_invoice
              eq_refl eq_refl eq_refl) as (out & h' & rep & _ & _ & _ & Hrep & _).
  exists rep. exact Hrep.
Defined.

(** X7: the default "Unknown" is used for matching but not stored: when the
    first invoice line has no [item_description] and its total exceeds the
    report's starting maximum [-1.0] (as the total [0.0] of an unmatched
    line does), the calculation succeeds and the report raises
    [KeyError('item_description')]. *)
Theorem report_raises_on_line_without_description (l : loc) (rest : list loc)
    (factors_db : list row) (h : heap) (qty factor : float) :
  forallb well_formed_entry factors_db = true ->
  forallb (fun l => l <? List.length h) (l :: rest) = true ->
  forallb (fun l => is_text (description_of (deref h l))) (l :: rest) = true ->
  Py.get (deref h l) "item_description" = None ->
  quantity_of (deref h l) = Ok qty ->
  get_emission_factor (VStr "Unknown") factors_db = Ok factor ->
  (-1 <? qty * factor)%float = true ->
  (exists final_data h',
     calculate_invoice_emissions (l :: rest) factors_db h = (Ok final_data, h'))
  /\ calculate_and_report (l :: rest) factors_db h
     = Raise (KeyError "item_description").
Proof.
  intros Hwf Hal Htext Hnone Hq Hf Hgt.
  destruct (enrich_all_ok factors_db h (l :: rest)) as (He & _ & _).
  { intros l' Hl'. apply enrich_line_text; [exact Hwf|].
    rewrite forallb_forall in Htext. now apply Htext. }
  destruct (calculate_output_rows _ _ _ Hal He) as [Hcalc Hrows].
  split; [eexists _, _; exact Hcalc|].
  unfold calculate_and_report. rewrite Hcalc, Hrows.
  cbn [enrich_all].
  assert (Hline : enrich_line factors_db (deref h l)
                  = Ok (enrich (deref h l) factor qty)).
  { unfold enrich_line, description_of. rewrite Hq, Hnone. cbn [bind].
    now rewrite Hf. }
  rewrite Hline. destruct (enrich_all factors_db h rest) as [rs e]. cbn [fst].
  unfold generate_text_report. cbn [report_loop report_step].
  unfold Py.getitem at 1. rewrite get_enrich_total. cbn [bind as_number].
  rewrite Hgt. unfold Py.getitem at 1.
  rewrite (get_enrich_other _ _ _ "item_description" eq_refl), Hnone.
  reflexivity.
Qed.

Lemma report_raises_on_line_without_description_witness :
  Py.get (deref demo_invoice 1) "item_description" = None
  /\ calculate_and_report [1; 0] demo_db demo_invoice
     = Raise (KeyError "item_description").
Proof.
  split; [reflexivity|].
  refine (proj2 (report_raises_on_line_without_description 1 [0] demo_db demo_invoice
                   1%float 0%float eq_refl eq_refl eq_refl eq_refl _ _ _));
    vm_compute; reflexivity.
Defined.

(** ** Zero factors *)

Lemma Prim2SF_zero : Prim2SF 0%float = S754_zero false.
Proof. reflexivity. Qed.

Lemma mul_zero_finite (q : float) :
  finite q = true -> is_zero (q * 0)%float = true.
Proof.
  unfold finite, is_zero. rewrite mul_spec, Prim2SF_zero.
  destruct (Prim2SF q) as [s|s| |s m e]; try discriminate; reflexivity.
Qed.

Lemma add_zero_zero (t z : float) :
  t = 0%float -> is_zero z = true -> (t + z)%float = 0%float.
Proof.
  intros -> Hz. apply Prim2SF_inj. rewrite add_spec, Prim2SF_zero.
  unfold is_zero in Hz. destruct (Prim2SF z) as [[]|s| |s m e]; try discriminate;
    reflexivity.
Qed.

Lemma ltb_floor_zero (z : float) : is_zero z = true -> (-1 <? z)%float = true.
Proof.
  unfold is_zero. rewrite ltb_spec.
  destruct (Prim2SF z) as [s|s| |s m e] eqn:E; try discriminate. reflexivity.
Qed.

Lemma leb_zero_zero (x y : float) :
  is_zero x = true -> is_zero y = true -> (x <=? y)%float = true.
Proof.
  unfold is_zero. rewrite leb_spec.
  destruct (Prim2SF x); try discriminate. destruct (Prim2SF y); try discriminate.
  reflexivity.
Qed.

Lemma sum_co2_zeros (lines : list row) (acc : float) :
  acc = 0%float ->
  forallb (fun r => is_zero (line_co2 r)) lines = true ->
  fold_left (fun acc r => (acc + line_co2 r)%float) lines acc = 0%float.
Proof.
  revert acc. induction lines as [|r lines IH]; intros acc Hacc Hz; [exact Hacc|].
  simpl in Hz. apply andb_true_iff in Hz as [Hr Hz].
  cbn [fold_left]. apply IH; [now apply add_zero_zero | exact Hz].
Qed.

Lemma unmatched_all (lines : list row) :
  forallb (fun r => (line_factor r =? 0)%float) lines = true ->
  unmatched lines = lines.
Proof.
  unfold unmatched. induction lines as [|r lines IH]; [reflexivity|].
  simpl. intros H. apply andb_true_iff in H as [Hr H].
  now rewrite Hr, IH.
Qed.

(** the records returned for an empty reference table *)
Lemma enrich_all_empty_table (h : heap) (invoice_data : list loc) :
  forallb (fun l => has_text_description (deref h l)) invoice_data = true ->
  forallb (fun l => finite_quantity (deref h l)) invoice_data = true ->
  snd (enrich_all [] h invoice_data) = None
  /\ List.length (fst (enrich_all [] h invoice_data)) = List.length invoice_data
  /\ forallb enriched (fst (enrich_all [] h invoice_data)) = true
  /\ forallb (fun r => is_zero (line_co2 r)) (fst (enrich_all [] h invoice_data)) = true
  /\ forallb (fun r => (line_factor r =? 0)%float)
             (fst (enrich_all [] h invoice_data)) = true
  /\ map (fun r => Py.get r "item_description") (fst (enrich_all [] h invoice_data))
     = map (fun l => Py.get (deref h l) "item_description") invoice_data.
Proof.
  induction invoice_data as [|l rest IH]; intros Hd Hq.
  - simpl. repeat split.
  - simpl in Hd, Hq.
    apply andb_true_iff in Hd as [Hdl Hd], Hq as [Hql Hq].
    destruct (IH Hd Hq) as (He & Hlen & Hen & Hz & Hf & Hdesc).
    cbn [enrich_all]. unfold enrich_line.
    unfold finite_quantity in Hql.
    destruct (quantity_of (deref h l)) as [q|] eqn:Eq; [|discriminate].
    cbn [bind].
    destruct (has_text_description_is_text _ Hdl) as [Htext Hsome].
    destruct (description_of (deref h l)) as [d|] eqn:Ed; [|discriminate].
    rewrite empty_table_no_match. cbn [bind].
    destruct (enrich_all [] h rest) as [rs e]. cbn [fst snd] in *.
    split; [exact He|]. split; [simpl; now rewrite Hlen|].
    cbn [forallb map].
    rewrite (enriched_enrich _ _ _ Hsome), Hen, Hz, Hf, Hdesc.
    unfold line_co2, line_factor. rewrite get_enrich_total, get_enrich_factor.
    rewrite (mul_zero_finite q Hql).
    rewrite (get_enrich_other _ _ _ "item_description" eq_refl).
    repeat split.
Qed.

(** X8: against an empty reference table, for lines that carry a text
    description and a quantity that is absent, unparsable or a finite
    number: nothing raises, every line counts as unmatched, the total is
    exactly [0.0], and the running maximum is taken by the first line, at
    [0.0 > -1.0].  The report prints that line's description as highest
    emitting item unless the description is the empty text, in which case
    it prints no highest emitter; it prints the warning when there is a
    line. *)
Theorem report_for_empty_table (invoice_data : list loc) (h : heap) :
  forallb (fun l => l <? List.length h) invoice_data = true ->
  forallb (fun l => has_text_description (deref h l)) invoice_data = true ->
  forallb (fun l => finite_quantity (deref h l)) invoice_data = true ->
  exists rep,
    calculate_and_report invoice_data [] h = Ok rep
    /\ total_co2 rep = 0%float
    /\ unmatched_count rep = List.length invoice_data
    /\ highest_item rep
       = match invoice_data with
         | [] => None
         | l :: _ => Py.get (deref h l) "item_description"
         end
    /\ printed_highest_item rep
       = match invoice_data with
         | [] => None
         | l :: _ =>
             match Py.get (deref h l) "item_description" with
             | Some (VStr s) =>
                 if String.eqb s EmptyString then None else Some (VStr s)
             | _ => None
             end
         end
    /\ prints_warning rep = negb (Nat.eqb (List.length invoice_data) 0).
Proof.
  intros Hal Hd Hq.
  destruct (enrich_all_empty_table h invoice_data Hd Hq)
    as (He & Hlen & Hen & Hz & Hf & Hdesc).
  destruct (calculate_output_rows _ _ _ Hal He) as [Hcalc Hrows].
  destruct (generate_text_report_enriched _ Hen) as (item & val & Hrep & Hpk).
  unfold calculate_and_report. rewrite Hcalc, Hrows, Hrep.
  eexists. split; [reflexivity|].
  unfold printed_highest_item, prints_warning.
  cbn [total_co2 unmatched_count highest_item].
  split; [exact (sum_co2_zeros _ _ eq_refl Hz)|].
  split; [now rewrite (unmatched_all _ Hf)|].
  assert (Hitem : item = match invoice_data with
                         | [] => None
                         | l :: _ => Py.get (deref h l) "item_description"
                         end).
  { destruct invoice_data as [|l rest].
    - simpl in Hpk. destruct item as [d|]; [|reflexivity].
      destruct Hpk as (pre & r & post & H & _). now destruct pre.
    - destruct (fst (enrich_all [] h (l :: rest))) as [|r0 rs] eqn:Erows;
        [discriminate|].
      simpl in Hdesc. injection Hdesc as Hd0 _.
      simpl in Hz. apply andb_true_iff in Hz as [Hz0 Hz].
      destruct item as [d|]; simpl in Hpk.
      + destruct Hpk as (pre & r & post & Hsplit & Hdr & _ & _ & Hpre & _).
        destruct pre as [|p pre].
        * simpl in Hsplit. injection Hsplit as <- _. now rewrite <- Hd0.
        * simpl in Hsplit. injection Hsplit as Hp Hrs. subst p.
          assert (Hzr : is_zero (line_co2 r) = true).
          { rewrite forallb_forall in Hz. apply Hz.
            first [rewrite <- Hrs | rewrite Hrs].
            apply in_or_app. right. now left. }
          specialize (Hpre r0 (or_introl eq_refl)).
          rewrite (leb_zero_zero _ _ Hzr Hz0) in Hpre. discriminate.
      + destruct Hpk as [_ H]. specialize (H r0 (or_introl eq_refl)).
        rewrite (ltb_floor_zero _ Hz0) in H. discriminate. }
  split; [exact Hitem|]. split.
  - rewrite Hitem. destruct invoice_data as [|l rest]; [reflexivity|].
    simpl in Hd. apply andb_true_iff in Hd as [Hdl _].
    unfold has_text_description in Hdl.
    destruct (Py.get (deref h l) "item_description") as [[s|f]|];
      try discriminate.
    unfold truthy. now destruct (String.eqb s EmptyString).
  - rewrite (unmatched_all _ Hf), Hlen. now destruct invoice_data.
Qed.

Lemma report_for_empty_table_witness :
  forallb (fun l => l <? List.length demo_invoice) [2; 0] = true
  /\ forallb (fun l => has_text_description (deref demo_invoice l)) [2; 0] = true
  /\ forallb (fun l => finite_quantity (deref demo_invoice l)) [2; 0] = true
  /\ exists rep,
       calculate_and_report [2; 0] [] demo_invoice = Ok rep
       /\ total_co2 rep = 0%float
       /\ unmatched_count rep = 2
       /\ printed_highest_item rep = Some (VStr "coffe latte").
Proof.
  split; [reflexivity|]. split; [reflexivity|]. split; [vm_compute; reflexivity|].
  assert (Hq : forallb (fun l => finite_quantity (deref demo_invoice l)) [2; 0] = true)
    by (vm_compute; reflexivity).
  destruct (report_for_empty_table [2; 0] demo_invoice eq_refl eq_refl Hq)
    as (rep & Hrep & Htotal & Hcount & _ & Hprinted & _).
  exists rep. split; [exact Hrep|]. split; [exact Htotal|].
  split; [exact Hcount | exact Hprinted].
Defined.

(** a first line whose description cell is empty, as the loader returns for
    the CSV line [,1]: the running maximum is taken, nothing is printed for
    it *)
Example empty_description_is_not_printed :
  exists rep,
    calculate_and_report [0] [] [[("item_description", VStr ""); ("quantity", VStr "1")]]
    = Ok rep
    /\ highest_item rep = Some (VStr "")
    /\ printed_highest_item rep = None.
Proof. eexists. split; [vm_compute; reflexivity|]. split; reflexivity. Qed.

(** X9: with a reference record that lacks a field, the calculator raises
    that record's [KeyError] at the first invoice line, before any record
    is created: nothing is returned and the store is as it was.  Only an
    empty invoice goes through. *)
Theorem calculator_stops_at_first_line (l : loc) (lines : list loc)
    (good rest : list row) (bad : row) (h : heap) :
  forallb well_formed_entry good = true ->
  well_formed_entry bad = false ->
  is_text (description_of (deref h l)) = true ->
  calculate_invoice_emissions (l :: lines) (good ++ bad :: rest) h
  = (Raise (entry_error bad), h)
  /\ calculate_invoice_emissions [] (good ++ bad :: rest) h = (Ok [], h).
Proof.
  intros Hgood Hbad Htext. split; [|reflexivity].
  unfold calculate_invoice_emissions. cbn [process_rows].
  rewrite process_row_spec. unfold enrich_line.
  destruct (quantity_of_total (deref h l)) as [qty ->]. cbn [bind].
  destruct (description_of (deref h l)) as [d|f]; [|discriminate].
  destruct (index_build_raises d good rest bad Hgood Hbad) as [_ ->].
  reflexivity.
Qed.

Lemma calculator_stops_at_first_line_witness :
  forallb well_formed_entry demo_db = true
  /\ well_formed_entry [("category", VStr "laptop")] = false
  /\ calculate_invoice_emissions [0; 1; 2]
       (demo_db ++ [("category", VStr "laptop")] :: []) demo_invoice
     = (Raise (KeyError "factor_kg_co2_per_unit"), demo_invoice).
Proof.
  split; [reflexivity|]. split; [reflexivity|].
  exact (proj1 (calculator_stops_at_first_line 0 [1; 2] demo_db []
                  [("category", VStr "laptop")] demo_invoice
                  eq_refl eq_refl eq_refl)).
Defined.

(* ================================================================= *)
(** ** The loader *)

Lemma setitem_fresh {V : Type} (d : Py.dict V) (k : string) (v : V) :
  ~ In k (Py.keys d) -> Py.setitem d k v = d ++ [(k, v)].
Proof.
  induction d as [|[k0 v0] d IH]; simpl; [reflexivity|].
  intros Hnin. destruct (String.eqb k0 k) eqn:E.
  - apply String.eqb_eq in E. tauto.
  - rewrite IH; [reflexivity | tauto].
Qed.

Lemma keys_app {V : Type} (d1 d2 : Py.dict V) :
  Py.keys (d1 ++ d2) = Py.keys d1 ++ Py.keys d2.
Proof. unfold Py.keys. apply map_app. Qed.

Lemma NoDup_app_head (l1 l2 : list string) (k : string) :
  NoDup (l1 ++ k :: l2) -> ~ In k l1 /\ NoDup ((l1 ++ [k]) ++ l2).
Proof.
  intros H. split.
  - apply NoDup_remove_2 in H. intros Hin. apply H. apply in_or_app. now left.
  - now rewrite <- app_assoc.
Qed.

Lemma zip_fields_fresh (fieldnames row : list string) (d : Py.dict (option string)) :
  NoDup (Py.keys d ++ fieldnames) ->
  zip_fields fieldnames row d = d ++ combine fieldnames (map Some row).
Proof.
  revert row d. induction fieldnames as [|k fs IH]; intros row d Hnd.
  - simpl. now rewrite app_nil_r.
  - destruct row as [|v row]; simpl; [now rewrite app_nil_r|].
    destruct (NoDup_app_head _ _ _ Hnd) as [Hnin Hnd'].
    rewrite (setitem_fresh d k (Some v) Hnin).
    rewrite IH; [now rewrite <- app_assoc|].
    now rewrite keys_app.
Qed.

Lemma restval_fresh (ks : list string) (d : Py.dict (option string)) :
  NoDup (Py.keys d ++ ks) ->
  fold_left (fun d key => Py.setitem d key None) ks d
  = d ++ map (fun k => (k, None)) ks.
Proof.
  revert d. induction ks as [|k ks IH]; intros d Hnd; simpl.
  - now rewrite app_nil_r.
  - destruct (NoDup_app_head _ _ _ Hnd) as [Hnin Hnd'].
    rewrite (setitem_fresh d k None Hnin).
    rewrite IH; [now rewrite <- app_assoc|].
    now rewrite keys_app.
Qed.

Lemma keys_combine {V : Type} (fieldnames : list string) (vs : list V) :
  Py.keys (combine fieldnames vs) = firstn (List.length vs) fieldnames.
Proof.
  revert vs. induction fieldnames as [|k fs IH]; intros [|v vs]; simpl; try reflexivity.
  now rewrite IH.
Qed.

Lemma strip_fields_fresh (items : list (string * option string)) (clean : row) :
  NoDup (Py.keys clean ++ map fst items) ->
  strip_fields items clean = clean ++ present_items items.
Proof.
  revert clean. induction items as [|[k [v|]] items IH]; intros clean Hnd.
  - simpl. now rewrite app_nil_r.
  - cbn [strip_fields]. cbn [map fst] in Hnd.
    destruct (NoDup_app_head _ _ _ Hnd) as [Hnin Hnd'].
    rewrite (setitem_fresh clean k _ Hnin).
    rewrite IH; [unfold present_items; simpl; now rewrite <- app_assoc|].
    now rewrite keys_app.
  - cbn [strip_fields]. cbn [map fst] in Hnd.
    apply IH. apply NoDup_remove_1 in Hnd. exact Hnd.
Qed.

Lemma present_items_cells (fieldnames record : list string) :
  present_items (combine fieldnames (map Some record))
  = row_of_record fieldnames record.
Proof.
  unfold present_items, row_of_record. revert record.
  induction fieldnames as [|k fs IH]; intros [|v record]; simpl; try reflexivity.
  now rewrite IH.
Qed.

Lemma present_items_restval (ks : list string) :
  present_items (map (fun k => (k, None)) ks) = [].
Proof. unfold present_items. induction ks as [|k ks IH]; simpl; auto. Qed.

(** a record no longer than the header becomes the row of its stripped
    cells under the header's names *)
Lemma clean_row_fits (fieldnames record : list string) :
  NoDup fieldnames ->
  List.length record <= List.length fieldnames ->
  clean_row (DictReader_next fieldnames record)
  = Ok (row_of_record fieldnames record).
Proof.
  intros Hnd Hlen. unfold clean_row, DictReader_next.
  assert (E : (List.length fieldnames <? List.length record) = false)
    by (apply Nat.ltb_ge; exact Hlen).
  rewrite E. cbn [fields extra].
  rewrite (zip_fields_fresh fieldnames record []) by exact Hnd.
  cbn [app].
  assert (Hk : Py.keys (combine fieldnames (map Some record))
               = firstn (List.length record) fieldnames)
    by (rewrite keys_combine; now rewrite length_map).
  rewrite restval_fresh by (rewrite Hk, firstn_skipn; exact Hnd).
  rewrite strip_fields_fresh.
  - unfold present_items. rewrite flat_map_app.
    fold (present_items (combine fieldnames (map Some record))).
    fold (present_items (map (fun k : string => (k, @None string))
                             (skipn (List.length record) fieldnames))).
    rewrite present_items_cells, present_items_restval. cbn [app].
    now rewrite app_nil_r.
  - cbn [Py.keys map app]. rewrite map_app.
    change (map fst (combine fieldnames (map Some record)))
      with (Py.keys (combine fieldnames (map Some record))).
    rewrite Hk, map_map. cbn [fst]. rewrite map_id, firstn_skipn. exact Hnd.
Qed.

Lemma clean_row_long (fieldnames record : list string) :
  List.length fieldnames < List.length record ->
  clean_row (DictReader_next fieldnames record) = Raise AttributeError.
Proof.
  intros Hlen. unfold clean_row, DictReader_next.
  apply Nat.ltb_lt in Hlen. now rewrite Hlen.
Qed.

Lemma read_records_fit (fieldnames : list string) (records : list (list string))
    (data : list row) :
  NoDup fieldnames ->
  forallb (fun record => List.length record <=? List.length fieldnames) records = true ->
  read_records fieldnames records data
  = Ok (data ++ map (row_of_record fieldnames) (filter not_blank records)).
Proof.
  intros Hnd. revert data. induction records as [|record rest IH]; intros data Hfit.
  - simpl. now rewrite app_nil_r.
  - simpl in Hfit. apply andb_true_iff in Hfit as [Hrec Hrest].
    apply Nat.leb_le in Hrec.
    destruct record as [|c cs]; [exact (IH data Hrest)|].
    cbn [read_records filter not_blank map].
    rewrite (clean_row_fits fieldnames (c :: cs) Hnd Hrec). cbn [bind].
    rewrite IH by exact Hrest. now rewrite <- app_assoc.
Qed.

Lemma read_records_long (fieldnames long : list string)
    (before after : list (list string)) (data : list row) :
  List.length fieldnames < List.length long ->
  exists e, read_records fieldnames (before ++ long :: after) data = Raise e.
Proof.
  intros Hlong. revert data.
  induction before as [|record before IH]; intros data.
  - destruct long as [|c cs]; [simpl in Hlong; lia|].
    cbn [app read_records]. rewrite (clean_row_long _ _ Hlong).
    now exists AttributeError.
  - destruct record as [|c cs]; [exact (IH data)|].
    cbn [app read_records].
    destruct (clean_row (DictReader_next fieldnames (c :: cs))) as [r|e].
    + exact (IH (data ++ [r])).
    + now exists e.
Qed.

(** X10: the loader gives up on the whole file, returning the empty list
    and raising nothing, when the file has no header line (the [ValueError]
    it raises for that case is caught by its own handler) and when any
    record has more cells than the header, whatever the other records
    are. *)
Theorem loader_returns_nothing (fieldnames long : list string)
    (before after : list (list string)) :
  List.length fieldnames < List.length long ->
  load_csv_data (Records []) = Returned []
  /\ load_csv_data (Records ([] :: before)) = Returned []
  /\ load_csv_data (Records (fieldnames :: before ++ long :: after)) = Returned [].
Proof.
  intros Hlong. split; [reflexivity|]. split; [reflexivity|].
  unfold load_csv_data, load_body.
  destruct fieldnames as [|k fs]; [reflexivity|].
  destruct (read_records_long (k :: fs) long before after [] Hlong) as [e ->].
  reflexivity.
Qed.

Lemma loader_returns_nothing_witness :
  load_csv_data (Records [ ["category"; "factor_kg_co2_per_unit"];
                           ["laptop"; "250.0"];
                           ["coffee"; "5.0"; "per cup"];
                           ["paper"; "1.5"] ])
  = Returned [].
Proof.
  refine (proj2 (proj2 (loader_returns_nothing
            ["category"; "factor_kg_co2_per_unit"] ["coffee"; "5.0"; "per cup"]
            [["laptop"; "250.0"]] [["paper"; "1.5"]] _))).
  simpl. lia.
Defined.

(** X11: for a file whose header names are distinct and none of whose
    records is longer than the header, the loader returns one row per
    record that is not blank, in order: the record's cells, stripped, under
    the header's names.  A short record gives a row without the names it
    has no cell for. *)
Theorem loader_rows (fieldnames : list string) (records : list (list string)) :
  fieldnames <> [] ->
  NoDup fieldnames ->
  forallb (fun record => List.length record <=? List.length fieldnames) records = true ->
  load_csv_data (Records (fieldnames :: records))
  = Returned (map (row_of_record fieldnames) (filter not_blank records))
  /\ forall record,
       Py.keys (row_of_record fieldnames record)
       = firstn (List.length record) fieldnames.
Proof.
  intros Hne Hnd Hfit. split.
  - unfold load_csv_data, load_body.
    destruct fieldnames as [|k fs]; [contradiction|].
    now rewrite (read_records_fit (k :: fs) records [] Hnd Hfit).
  - intros record. unfold row_of_record. rewrite keys_combine. now rewrite length_map.
Qed.

Lemma loader_rows_witness :
  load_csv_data demo_factors_file
  = Returned
      [ [("category", VStr "Laptop"); ("factor_kg_co2_per_unit", VStr "250.0")];
        [("category", VStr "coffee"); ("factor_kg_co2_per_unit", VStr "5.0")] ].
Proof.
  refine (proj1 (loader_rows ["category"; "factor_kg_co2_per_unit"]
                   [[" Laptop "; "250.0"]; []; ["coffee"; " 5.0"]] _ _ _)).
  - discriminate.
  - repeat constructor; simpl; intuition discriminate.
  - reflexivity.
Defined.

(* ================================================================= *)
(** ** The export *)

Lemma fields_within_self (r : row) : fields_within (Py.keys r) r = true.
Proof.
  unfold fields_within. apply forallb_forall. intros k Hk.
  now apply existsb_eqb_In.
Qed.

Lemma writerows_within (fieldnames : list string) (rowdicts : list row)
    (written : table) :
  forallb (fields_within fieldnames) rowdicts = true ->
  writerows fieldnames rowdicts written
  = (Ok tt, written ++ map (cells_of fieldnames) rowdicts).
Proof.
  revert written. induction rowdicts as [|r rest IH]; intros written Hin.
  - simpl. now rewrite app_nil_r.
  - simpl in Hin. apply andb_true_iff in Hin as [Hr Hrest].
    cbn [writerows]. unfold dict_to_list. fold (fields_within fieldnames r).
    rewrite Hr. fold (cells_of fieldnames r).
    rewrite (IH _ Hrest). now rewrite <- app_assoc.
Qed.

Lemma writerows_foreign (fieldnames : list string) (before after : list row)
    (bad : row) (written : table) :
  forallb (fields_within fieldnames) before = true ->
  fields_within fieldnames bad = false ->
  writerows fieldnames (before ++ bad :: after) written
  = (Raise ValueError, written ++ map (cells_of fieldnames) before).
Proof.
  revert written. induction before as [|r rest IH]; intros written Hin Hbad.
  - cbn [app writerows map]. unfold dict_to_list. fold (fields_within fieldnames bad).
    rewrite Hbad. now rewrite app_nil_r.
  - simpl in Hin. apply andb_true_iff in Hin as [Hr Hrest].
    cbn [app writerows]. unfold dict_to_list. fold (fields_within fieldnames r).
    rewrite Hr. fold (cells_of fieldnames r).
    rewrite (IH _ Hrest Hbad). now rewrite <- app_assoc.
Qed.

(** X12: when no row has a field that the first row lacks, the export
    writes the first row's field names as header and then one record per
    row, in order, each with the row's values under those names and the
    empty text where the row has no such field. *)
Theorem export_writes_all_rows (first : row) (others : list row) :
  forallb (fields_within (Py.keys first)) others = true ->
  export_results (first :: others) true
  = Written (map VStr (Py.keys first)
             :: map (cells_of (Py.keys first)) (first :: others))
  /\ export_results (first :: others) false = NotWritten
  /\ export_results [] true = NothingToExport.
Proof.
  intros Hin. split; [|split; reflexivity].
  unfold export_results.
  rewrite (writerows_within (Py.keys first) (first :: others)).
  - reflexivity.
  - cbn [forallb]. now rewrite fields_within_self, Hin.
Qed.

Lemma export_writes_all_rows_witness :
  forallb (fields_within (Py.keys (hd [] demo_lines))) (tl demo_lines) = true
  /\ export_results demo_lines true
     = Written [ [VStr "item_description"; VStr "matched_factor"; VStr "total_line_co2"];
                 [VStr "A"; VFloat 0; VFloat 0];
                 [VStr "B"; VFloat 5; VFloat 10];
                 [VStr "C"; VFloat 2; VFloat 10] ].
Proof.
  split; [reflexivity|].
  exact (proj1 (export_writes_all_rows (hd [] demo_lines) (tl demo_lines) eq_refl)).
Defined.

Lemma export_new_field_raises (first bad : row) (before after : list row) :
  forallb (fields_within (Py.keys first)) before = true ->
  fields_within (Py.keys first) bad = false ->
  export_results (first :: before ++ bad :: after) true
  = WriteRaised ValueError
      (map VStr (Py.keys first) :: map (cells_of (Py.keys first)) (first :: before)).
Proof.
  intros Hin Hbad. unfold export_results.
  rewrite (writerows_foreign (Py.keys first) (first :: before) after bad).
  - reflexivity.
  - cbn [forallb]. now rewrite fields_within_self, Hin.
  - exact Hbad.
Qed.

(** X13: the header is fixed by the first row: at the first row that has a
    field the first row lacks, the export raises [ValueError], which its
    handler for [IOError] does not catch; the file is left with the header
    and the records before that row. *)
Theorem export_raises_on_new_field (first bad : row) (before after : list row) :
  forallb (fields_within (Py.keys first)) before = true ->
  fields_within (Py.keys first) bad = false ->
  export_results (first :: before ++ bad :: after) true
  = WriteRaised ValueError
      (map VStr (Py.keys first) :: map (cells_of (Py.keys first)) (first :: before)).
Proof.
  intros Hin Hbad. unfold export_results.
  rewrite (writerows_foreign (Py.keys first) (first :: before) after bad).
  - reflexivity.
  - cbn [forallb]. now rewrite fields_within_self, Hin.
  - exact Hbad.
Qed.

Lemma export_raises_on_new_field_witness :
  export_results
    ([("item_description", VStr "Laptop"); ("matched_factor", VFloat 250)]
     :: [] ++ [("item_description", VStr "Coffee"); ("quantity", VStr "3");
               ("matched_factor", VFloat 5)] :: [])
    true
  = WriteRaised ValueError
      [ [VStr "item_description"; VStr "matched_factor"];
        [VStr "Laptop"; VFloat 250] ].
Proof.
  exact (export_raises_on_new_field
           [("item_description", VStr "Laptop"); ("matched_factor", VFloat 250)]
           [("item_description", VStr "Coffee"); ("quantity", VStr "3");
            ("matched_factor", VFloat 5)]
           [] [] eq_refl eq_refl).
Defined.

(* ================================================================= *)
(** ** The whole run *)

Lemma allocated_seq (h : heap) (a n : nat) :
  a + n <= List.length h ->
  forallb (fun l => l <? List.length h) (seq a n) = true.
Proof.
  revert a. induction n as [|n IH]; intros a Ha; [reflexivity|].
  cbn [seq forallb]. apply andb_true_iff. split.
  - apply Nat.ltb_lt. lia.
  - apply IH. lia.
Qed.

Lemma map_deref_seq (h : heap) :
  map (deref h) (seq 0 (List.length h)) = h.
Proof.
  pose proof (map_deref_new [] h) as H. exact H.
Qed.

Lemma enrich_line_enriched_row (factors_db : list row) (r r' : row) :
  enrich_line factors_db r = Ok r' -> r' = enriched_row factors_db r.
Proof.
  intros H. destruct (enrich_line_inv _ _ _ H) as (qty & factor & Hq & Hf & ->).
  unfold enriched_row, qty_of, factor_for. now rewrite Hq, Hf.
Qed.

Lemma enrich_all_map (factors_db : list row) (h : heap) (ls : list loc) :
  (forall l, In l ls -> exists r, enrich_line factors_db (deref h l) = Ok r) ->
  enrich_all factors_db h ls
  = (map (fun l => enriched_row factors_db (deref h l)) ls, None).
Proof.
  induction ls as [|l ls IH]; intros Hok; [reflexivity|].
  cbn [enrich_all map].
  destruct (Hok l (or_introl eq_refl)) as [r Hr]. rewrite Hr.
  rewrite IH by (intros l' Hl'; apply Hok; now right).
  now rewrite (enrich_line_enriched_row _ _ _ Hr).
Qed.

Lemma deref_In (h : heap) (l : loc) : l < List.length h -> In (deref h l) h.
Proof. intros Hl. unfold deref. now apply nth_In. Qed.

(** the calculation in [main]: the rows of the invoice are the store and
    every row is processed *)
Lemma calculate_loaded (factors_db invoices : list row) :
  forallb well_formed_entry factors_db = true ->
  forallb (fun r => is_text (description_of r)) invoices = true ->
  exists final_data h',
    calculate_invoice_emissions (seq 0 (List.length invoices)) factors_db invoices
    = (Ok final_data, h')
    /\ map (deref h') final_data = map (enriched_row factors_db) invoices.
Proof.
  intros Hwf Htext.
  assert (Hal : forallb (fun l => l <? List.length invoices)
                        (seq 0 (List.length invoices)) = true)
    by (apply allocated_seq; lia).
  assert (Hall : enrich_all factors_db invoices (seq 0 (List.length invoices))
                 = (map (fun l => enriched_row factors_db (deref invoices l))
                        (seq 0 (List.length invoices)), None)).
  { apply enrich_all_map. intros l Hl. apply in_seq in Hl.
    apply enrich_line_text; [exact Hwf|].
    rewrite forallb_forall in Htext. apply Htext, deref_In. lia. }
  rewrite (calculate_invoice_emissions_spec _ _ _ Hal), Hall. cbn [fst snd].
  eexists _, _. split; [reflexivity|].
  rewrite map_deref_new.
  rewrite <- (map_map (deref invoices) (enriched_row factors_db)).
  now rewrite map_deref_seq.
Qed.

Lemma main_loaded (factors_file invoice_file : csv_file) (can_open : bool)
    (e : row) (db : list row) (r : row) (rs : list row) :
  load_csv_data factors_file = Returned (e :: db) ->
  load_csv_data invoice_file = Returned (r :: rs) ->
  main factors_file invoice_file can_open
  = match calculate_invoice_emissions
            (seq 0 (List.length (r :: rs))) (e :: db) (r :: rs) with
    | (Raise x, _) =>
        {| status := Uncaught x; printed := None; output_file := None |}
    | (Ok final_data, h') =>
        match generate_text_report (map (deref h') final_data) with
        | Raise x =>
            {| status := Uncaught x; printed := None; output_file := None |}
        | Ok rep =>
            match export_results (map (deref h') final_data) can_open with
            | NothingToExport | NotWritten =>
                {| status := Finished; printed := Some rep; output_file := None |}
            | Written file =>
                {| status := Finished; printed := Some rep;
                   output_file := Some file |}
            | WriteRaised x file =>
                {| status := Uncaught x; printed := Some rep;
                   output_file := Some file |}
            end
        end
    end.
Proof. intros Hf Hi. unfold main. now rewrite Hf, Hi. Qed.

Lemma load_long_record (fieldnames long : list string)
    (before after : list (list string)) :
  List.length fieldnames < List.length long ->
  load_csv_data (Records (fieldnames :: before ++ long :: after)) = Returned [].
Proof.
  intros Hlong. unfold load_csv_data, load_body.
  destruct fieldnames as [|k fs]; [reflexivity|].
  destruct (read_records_long (k :: fs) long before after [] Hlong) as [e ->].
  reflexivity.
Qed.

(** X15: one record with more cells than the header, in either file, ends
    the run with exit status 1: the loader returns no row for that file,
    whatever else the two files hold. *)
Theorem main_exits_on_long_record (fieldnames long : list string)
    (before after : list (list string)) (other : csv_file) (can_open : bool) :
  List.length fieldnames < List.length long ->
  main (Records (fieldnames :: before ++ long :: after)) other can_open = exit_early
  /\ main other (Records (fieldnames :: before ++ long :: after)) can_open = exit_early.
Proof.
  intros Hlong. pose proof (load_long_record _ _ before after Hlong) as Hload.
  split.
  - unfold main. rewrite Hload. now destruct (load_csv_data other).
  - unfold main. rewrite Hload. destruct (load_csv_data other) as [|[|e db]]; reflexivity.
Qed.

Lemma main_exits_on_long_record_witness :
  main demo_factors_file
       (Records ([ "item_description"; "quantity" ]
                 :: [["Laptop"; "2"]] ++ ["Coffee, ground"; "3"; "kg"] :: []))
       true
  = exit_early.
Proof.
  refine (proj2 (main_exits_on_long_record ["item_description"; "quantity"]
                   ["Coffee, ground"; "3"; "kg"] [["Laptop"; "2"]] []
                   demo_factors_file true _)).
  simpl. lia.
Defined.

Lemma enrich_line_raises (good rest : list row) (bad r : row) :
  forallb well_formed_entry good = true ->
  well_formed_entry bad = false ->
  is_text (description_of r) = true ->
  enrich_line (good ++ bad :: rest) r = Raise (entry_error bad).
Proof.
  intros Hgood Hbad Htext. unfold enrich_line.
  destruct (quantity_of_total r) as [qty ->]. cbn [bind].
  destruct (description_of r) as [d|f]; [|discriminate].
  destruct (index_build_raises d good rest bad Hgood Hbad) as [_ ->].
  reflexivity.
Qed.

(** X16: a reference file with a record short of a cell stops the run with
    an uncaught [KeyError]: the loader returns that record as a row without
    the field, the calculator raises at the first invoice line, and neither
    a report nor an output file is produced. *)
Theorem main_crashes_on_short_reference_record
    (factors_file invoice_file : csv_file) (can_open : bool)
    (good rest : list row) (bad first : row) (others : list row) :
  load_csv_data factors_file = Returned (good ++ bad :: rest) ->
  forallb well_formed_entry good = true ->
  well_formed_entry bad = false ->
  load_csv_data invoice_file = Returned (first :: others) ->
  is_text (description_of first) = true ->
  main factors_file invoice_file can_open
  = {| status := Uncaught (entry_error bad); printed := None; output_file := None |}.
Proof.
  intros Hf Hgood Hbad Hi Htext.
  destruct (good ++ bad :: rest) as [|e db] eqn:E; [destruct good; discriminate|].
  rewrite (main_loaded _ _ can_open e db first others Hf Hi). rewrite <- E.
  unfold calculate_invoice_emissions. cbn [List.length seq process_rows].
  rewrite process_row_spec.
  change (deref (first :: others) 0) with first.
  now rewrite (enrich_line_raises good rest bad first Hgood Hbad Htext).
Qed.

Lemma main_crashes_on_short_reference_record_witness :
  main short_factor_file demo_invoice_file true
  = {| status := Uncaught (KeyError "factor_kg_co2_per_unit");
       printed := None; output_file := None |}.
Proof.
  refine (main_crashes_on_short_reference_record short_factor_file demo_invoice_file
            true [[("category", VStr "coffee"); ("factor_kg_co2_per_unit", VStr "5.0")]]
            [] [("category", VStr "laptop")]
            [("item_description", VStr "Laptop"); ("quantity", VStr "2")]
            [[("item_description", VStr "Coffee beans"); ("quantity", VStr "3")]]
            _ _ _ _ _); reflexivity.
Defined.

Lemma fields_within_incl (fieldnames : list string) (r : row) :
  fields_within fieldnames r = true <-> incl (Py.keys r) fieldnames.
Proof.
  unfold fields_within. rewrite forallb_forall. unfold incl. split.
  - intros H k Hk. apply existsb_eqb_In. now apply H.
  - intros H k Hk. apply existsb_eqb_In. now apply H.
Qed.

Lemma keys_enrich (r : row) (factor qty : float) (k : string) :
  In k (Py.keys (enrich r factor qty))
  <-> k = "total_line_co2" \/ k = "matched_factor" \/ In k (Py.keys r).
Proof. unfold enrich. now rewrite !keys_setitem. Qed.

Lemma fields_within_enriched (factors_db : list row) (first r : row) :
  fields_within (Py.keys first) r = true ->
  fields_within (Py.keys (enriched_row factors_db first))
                (enriched_row factors_db r) = true.
Proof.
  rewrite !fields_within_incl. unfold enriched_row. intros H k Hk.
  apply keys_enrich. apply keys_enrich in Hk as [Hk | [Hk | Hk]]; auto.
Qed.

Lemma fields_within_enriched_false (factors_db : list row) (first r : row) :
  fields_within ("matched_factor" :: "total_line_co2" :: Py.keys first) r = false ->
  fields_within (Py.keys (enriched_row factors_db first))
                (enriched_row factors_db r) = false.
Proof.
  intros Hf.
  destruct (fields_within (Py.keys (enriched_row factors_db first))
                          (enriched_row factors_db r)) eqn:E; [|reflexivity].
  apply fields_within_incl in E.
  assert (H : fields_within ("matched_factor" :: "total_line_co2" :: Py.keys first) r
              = true).
  { apply fields_within_incl. intros k Hk.
    assert (Hk' : In k (Py.keys (enriched_row factors_db r)))
      by (unfold enriched_row; apply keys_enrich; auto).
    apply E in Hk'. unfold enriched_row in Hk'.
    apply keys_enrich in Hk' as [-> | [-> | Hk']]; simpl; auto. }
  congruence.
Qed.

Lemma keys_enrich_fresh (r : row) (factor qty : float) :
  forallb (fun k => negb (derived_field k)) (Py.keys r) = true ->
  Py.keys (enrich r factor qty)
  = Py.keys r ++ ["matched_factor"; "total_line_co2"].
Proof.
  intros Hfree. rewrite forallb_forall in Hfree.
  assert (H1 : ~ In "matched_factor" (Py.keys r))
    by (intros H; apply Hfree in H; discriminate).
  assert (H2 : ~ In "total_line_co2" (Py.keys r))
    by (intros H; apply Hfree in H; discriminate).
  unfold enrich. rewrite (setitem_fresh r _ _ H1).
  rewrite setitem_fresh.
  - now rewrite !keys_app, <- app_assoc.
  - rewrite keys_app. intros H. apply in_app_or in H as [H | [H | []]];
      [contradiction | discriminate].
Qed.

Lemma enriched_rows_enriched (factors_db invoices : list row) :
  forallb has_text_description invoices = true ->
  forallb enriched (map (enriched_row factors_db) invoices) = true.
Proof.
  intros H. apply forallb_forall. intros r' Hr'.
  apply in_map_iff in Hr' as (r & <- & Hr).
  rewrite forallb_forall in H. apply enriched_enrich.
  now apply has_text_description_is_text, H.
Qed.

Lemma text_descriptions (invoices : list row) :
  forallb has_text_description invoices = true ->
  forallb (fun r => is_text (description_of r)) invoices = true.
Proof.
  intros H. apply forallb_forall. intros r Hr. rewrite forallb_forall in H.
  now apply has_text_description_is_text, H.
Qed.

(** the run up to the export, for inputs the calculator and the report take *)
Lemma main_reported (factors_file invoice_file : csv_file) (can_open : bool)
    (e : row) (db : list row) (first : row) (others : list row) :
  load_csv_data factors_file = Returned (e :: db) ->
  forallb well_formed_entry (e :: db) = true ->
  load_csv_data invoice_file = Returned (first :: others) ->
  forallb has_text_description (first :: others) = true ->
  exists rep,
    generate_text_report (map (enriched_row (e :: db)) (first :: others)) = Ok rep
    /\ main factors_file invoice_file can_open
       = match export_results (map (enriched_row (e :: db)) (first :: others))
                 can_open with
         | NothingToExport | NotWritten =>
             {| status := Finished; printed := Some rep; output_file := None |}
         | Written file =>
             {| status := Finished; printed := Some rep; output_file := Some file |}
         | WriteRaised x file =>
             {| status := Uncaught x; printed := Some rep; output_file := Some file |}
         end.
Proof.
  intros Hf Hwf Hi Hdesc.
  destruct (calculate_loaded (e :: db) (first :: others) Hwf (text_descriptions _ Hdesc))
    as (final_data & h' & Hcalc & Hrows).
  destruct (generate_text_report_enriched _ (enriched_rows_enriched (e :: db) _ Hdesc))
    as (item & val & Hrep & _).
  eexists. split; [exact Hrep|].
  rewrite (main_loaded _ _ can_open e db first others Hf Hi).
  rewrite Hcalc, Hrows, Hrep. reflexivity.
Qed.

(** X17: when both files load, every reference row carries both fields,
    every invoice row carries a text description and no invoice row has a
    field the first one lacks, the run finishes: it prints the report and
    writes the header of the first emitted record followed by one record
    per invoice row.  For a first row without fields of the derived names
    the header is that row's field names followed by [matched_factor] and
    [total_line_co2]. *)
Theorem main_finishes (factors_file invoice_file : csv_file)
    (e : row) (db : list row) (first : row) (others : list row) :
  load_csv_data factors_file = Returned (e :: db) ->
  forallb well_formed_entry (e :: db) = true ->
  load_csv_data invoice_file = Returned (first :: others) ->
  forallb has_text_description (first :: others) = true ->
  forallb (fields_within (Py.keys first)) others = true ->
  exists rep,
    generate_text_report (map (enriched_row (e :: db)) (first :: others)) = Ok rep
    /\ main factors_file invoice_file true
       = {| status := Finished; printed := Some rep;
            output_file :=
              Some (map VStr (Py.keys (enriched_row (e :: db) first))
                    :: map (cells_of (Py.keys (enriched_row (e :: db) first)))
                           (map (enriched_row (e :: db)) (first :: others))) |}
    /\ main factors_file invoice_file false
       = {| status := Finished; printed := Some rep; output_file := None |}
    /\ (forallb (fun k => negb (derived_field k)) (Py.keys first) = true ->
        Py.keys (enriched_row (e :: db) first)
        = Py.keys first ++ ["matched_factor"; "total_line_co2"]).
Proof.
  intros Hf Hwf Hi Hdesc Hin.
  destruct (main_reported _ _ true e db first others Hf Hwf Hi Hdesc) as (rep & Hrep & Hm).
  destruct (main_reported _ _ false e db first others Hf Hwf Hi Hdesc)
    as (rep' & Hrep' & Hm').
  rewrite Hrep in Hrep'. injection Hrep' as <-.
  exists rep. split; [exact Hrep|]. split; [|split].
  - rewrite Hm. cbn [map]. unfold export_results.
    rewrite writerows_within; [reflexivity|].
    cbn [forallb]. rewrite fields_within_self. cbn [andb].
    apply forallb_forall. intros r' Hr'.
    apply in_map_iff in Hr' as (r & <- & Hr).
    apply fields_within_enriched. rewrite forallb_forall in Hin. now apply Hin.
  - rewrite Hm'. reflexivity.
  - intros Hfree. unfold enriched_row. now apply keys_enrich_fresh.
Qed.

Lemma main_finishes_witness :
  exists rep,
    main demo_factors_file demo_invoice_file true
    = {| status := Finished; printed := Some rep;
         output_file :=
           Some [ [VStr "item_description"; VStr "quantity";
                   VStr "matched_factor"; VStr "total_line_co2"];
                  [VStr "Laptop"; VStr "2"; VFloat 250; VFloat 500];
                  [VStr "Coffee beans"; VStr "3"; VFloat 5; VFloat 15] ] |}.
Proof.
  destruct (main_finishes demo_factors_file demo_invoice_file
              [("category", VStr "Laptop"); ("factor_kg_co2_per_unit", VStr "250.0")]
              [[("category", VStr "coffee"); ("factor_kg_co2_per_unit", VStr "5.0")]]
              [("item_description", VStr "Laptop"); ("quantity", VStr "2")]
              [[("item_description", VStr "Coffee beans"); ("quantity", VStr "3")]]
              eq_refl eq_refl eq_refl eq_refl eq_refl)
    as (rep & _ & Hm & _).
  exists rep. rewrite Hm. vm_compute. reflexivity.
Defined.

(** X18: when a later invoice row has a field that the first row lacks (as
    after a first record short of a cell), the run prints the report and
    then ends with an uncaught [ValueError] from the export, leaving an
    output file cut off before that row. *)
Theorem main_crashes_in_export (factors_file invoice_file : csv_file)
    (e : row) (db : list row) (first bad : row) (before after : list row) :
  load_csv_data factors_file = Returned (e :: db) ->
  forallb well_formed_entry (e :: db) = true ->
  load_csv_data invoice_file = Returned (first :: before ++ bad :: after) ->
  forallb has_text_description (first :: before ++ bad :: after) = true ->
  forallb (fields_within (Py.keys first)) before = true ->
  fields_within ("matched_factor" :: "total_line_co2" :: Py.keys first) bad = false ->
  exists rep,
    main factors_file invoice_file true
    = {| status := Uncaught ValueError; printed := Some rep;
         output_file :=
           Some (map VStr (Py.keys (enriched_row (e :: db) first))
                 :: map (cells_of (Py.keys (enriched_row (e :: db) first)))
                        (map (enriched_row (e :: db)) (first :: before))) |}.
Proof.
  intros Hf Hwf Hi Hdesc Hin Hbad.
  destruct (main_reported _ _ true e db first (before ++ bad :: after) Hf Hwf Hi Hdesc)
    as (rep & _ & Hm).
  exists rep. rewrite Hm. cbn [map]. rewrite map_app. cbn [map].
  rewrite (export_new_field_raises
             (enriched_row (e :: db) first) (enriched_row (e :: db) bad)
             (map (enriched_row (e :: db)) before)
             (map (enriched_row (e :: db)) after)).
  - reflexivity.
  - apply forallb_forall. intros r' Hr'.
    apply in_map_iff in Hr' as (r & <- & Hr).
    apply fields_within_enriched. rewrite forallb_forall in Hin. now apply Hin.
  - now apply fields_within_enriched_false.
Qed.

Lemma main_crashes_in_export_witness :
  exists rep,
    main demo_factors_file short_first_invoice_file true
    = {| status := Uncaught ValueError; printed := Some rep;
         output_file :=
           Some [ [VStr "item_description"; VStr "matched_factor";
                   VStr "total_line_co2"];
                  [VStr "Laptop"; VFloat 250; VFloat 250] ] |}.
Proof.
  destruct (main_crashes_in_export demo_factors_file short_first_invoice_file
              [("category", VStr "Laptop"); ("factor_kg_co2_per_unit", VStr "250.0")]
              [[("category", VStr "coffee"); ("factor_kg_co2_per_unit", VStr "5.0")]]
              [("item_description", VStr "Laptop")]
              [("item_description", VStr "Coffee beans"); ("quantity", VStr "3")]
              [] [] eq_refl eq_refl eq_refl eq_refl eq_refl eq_refl)
    as (rep & Hm).
  exists rep. rewrite Hm. vm_compute. reflexivity.
Defined.

(** ** New objects *)

(** X19: the records the calculator returns are new objects, pairwise
    distinct and none of them an input line, also when the same line object
    occurs more than once in the invoice; the store grows by exactly one
    object per line. *)
Theorem calculator_returns_new_objects (invoice_data : list loc)
    (factors_db : list row) (h h' : heap) (final_data : list loc) :
  forallb (fun l => l <? List.length h) invoice_data = true ->
  calculate_invoice_emissions invoice_data factors_db h = (Ok final_data, h') ->
  NoDup final_data
  /\ (forall l', In l' final_data -> ~ In l' invoice_data)
  /\ List.length final_data = List.length invoice_data
  /\ List.length h' = List.length h + List.length invoice_data.
Proof.
  intros Hal Hcalc.
  rewrite (calculate_invoice_emissions_spec _ _ _ Hal) in Hcalc.
  destruct (snd (enrich_all factors_db h invoice_data)) as [e|] eqn:He;
    [discriminate|].
  injection Hcalc as <- <-.
  pose proof (enrich_all_none_length _ _ _ He) as Hlen. rewrite Hlen.
  split; [apply seq_NoDup|]. split; [|split].
  - intros l' Hl' Hin. apply in_seq in Hl'.
    rewrite forallb_forall in Hal. apply Hal, Nat.ltb_lt in Hin. lia.
  - apply length_seq.
  - rewrite length_app. now rewrite Hlen.
Qed.

Lemma calculator_returns_new_objects_witness :
  forallb (fun l => l <? List.length demo_invoice) [0; 0; 2] = true
  /\ exists final_data h',
       calculate_invoice_emissions [0; 0; 2] demo_db demo_invoice = (Ok final_data, h')
       /\ NoDup final_data
       /\ List.length h' = 6.
Proof.
  split; [reflexivity|].
  destruct (calculate_invoice_emissions [0; 0; 2] demo_db demo_invoice)
    as [[final_data|e] h'] eqn:E.
  - destruct (calculator_returns_new_objects [0; 0; 2] demo_db demo_invoice h'
                final_data eq_refl E) as (Hnd & _ & _ & Hlen).
    exists final_data, h'. split; [reflexivity|]. split; [exact Hnd | exact Hlen].
  - vm_compute in E. discriminate E.
Defined.

(* ================================================================= *)
(** ** When the run stops before calculating *)

Lemma clean_row_not_long (fieldnames record : list string) :
  (List.length fieldnames <? List.length record) = false ->
  exists r, clean_row (DictReader_next fieldnames record) = Ok r.
Proof.
  intros H. unfold clean_row, DictReader_next. rewrite H. cbn [extra].
  eexists. reflexivity.
Qed.

Lemma read_records_count (fieldnames : list string) (records : list (list string))
    (data : list row) :
  existsb (fun record => List.length fieldnames <? List.length record) records = false ->
  exists data',
    read_records fieldnames records data = Ok data'
    /\ List.length data'
       = List.length data + List.length (filter not_blank records).
Proof.
  revert data. induction records as [|record rest IH]; intros data Hlong.
  - exists data. split; [reflexivity | simpl; lia].
  - simpl in Hlong. apply orb_false_iff in Hlong as [Hrec Hrest].
    destruct record as [|c cs].
    + destruct (IH data Hrest) as (data' & Hr & Hl). exists data'.
      split; [exact Hr | exact Hl].
    + cbn [read_records filter not_blank].
      destruct (clean_row_not_long fieldnames (c :: cs) Hrec) as [r ->]. cbn [bind].
      destruct (IH (data ++ [r]) Hrest) as (data' & Hr & Hl). exists data'.
      split; [exact Hr|]. rewrite Hl, length_app. simpl. lia.
Qed.

Lemma filter_not_blank_nil (records : list (list string)) :
  List.length (filter not_blank records) = 0 <-> existsb not_blank records = false.
Proof.
  induction records as [|record rest IH]; simpl; [tauto|].
  destruct (not_blank record); simpl; [split; [lia | discriminate] | exact IH].
Qed.

(** the loader returns no row exactly for the files described by
    [unusable] *)
Lemma loads_nothing_unusable (f : csv_file) : loads_nothing f = unusable f.
Proof.
  unfold loads_nothing. destruct f as [| |[|header records]]; try reflexivity.
  destruct header as [|k fs]; [reflexivity|].
  cbn [unusable not_blank negb orb].
  destruct (existsb (fun record => List.length (k :: fs) <? List.length record) records)
    eqn:Hlong.
  - apply existsb_exists in Hlong as (long & Hin & Hlen).
    apply Nat.ltb_lt in Hlen.
    apply in_split in Hin as (before & after & ->).
    now rewrite (load_long_record (k :: fs) long before after Hlen).
  - cbn [orb]. unfold load_csv_data, load_body.
    destruct (read_records_count (k :: fs) records [] Hlong) as (data & -> & Hl).
    simpl in Hl. destruct (existsb not_blank records) eqn:Hnb.
    + destruct data as [|r rs]; [|reflexivity].
      simpl in Hl. symmetry in Hl. apply filter_not_blank_nil in Hl. congruence.
    + apply filter_not_blank_nil in Hnb. rewrite Hnb in Hl.
      now destruct data.
Qed.

Lemma main_run_core (factors_file invoice_file : csv_file) (can_open : bool)
    (e : row) (db : list row) (r : row) (rs : list row) :
  load_csv_data factors_file = Returned (e :: db) ->
  load_csv_data invoice_file = Returned (r :: rs) ->
  main factors_file invoice_file can_open = run_core (e :: db) (r :: rs) can_open.
Proof. intros Hf Hi. unfold main, run_core. now rewrite Hf, Hi. Qed.

(** X14: the run stops at [sys.exit(1)], with no report printed and no file
    written, when one of the two files is missing or unreadable, has no
    header line, has a record longer than its header or has no record other
    than blank ones.  For every other pair of files both loaded lists are
    non-empty and the run goes on by calling the calculator on them. *)
Theorem main_exits_exactly_on_unusable_input
    (factors_file invoice_file : csv_file) (can_open : bool) :
  (unusable factors_file || unusable invoice_file = true ->
   main factors_file invoice_file can_open = exit_early)
  /\ (unusable factors_file || unusable invoice_file = false ->
      exists e db r rs,
        load_csv_data factors_file = Returned (e :: db)
        /\ load_csv_data invoice_file = Returned (r :: rs)
        /\ main factors_file invoice_file can_open
           = run_core (e :: db) (r :: rs) can_open
        /\ main factors_file invoice_file can_open <> exit_early).
Proof.
  rewrite <- !loads_nothing_unusable. unfold loads_nothing. split.
  - unfold main.
    destruct (load_csv_data factors_file) as [|[|e db]];
      destruct (load_csv_data invoice_file) as [|[|r rs]];
      simpl; intros H; try reflexivity; discriminate H.
  - destruct (load_csv_data factors_file) as [|[|e db]] eqn:Ef;
      destruct (load_csv_data invoice_file) as [|[|r rs]] eqn:Ei;
      simpl; intros H; try discriminate H.
    exists e, db, r, rs. split; [reflexivity|]. split; [reflexivity|].
    rewrite (main_run_core _ _ can_open e db r rs Ef Ei).
    split; [reflexivity|]. unfold run_core.
    destruct (calculate_invoice_emissions _ _ _) as [[final_data|x] h'];
      [|discriminate].
    destruct (generate_text_report _) as [rep|x]; [|discriminate].
    destruct (export_results _ can_open); discriminate.
Qed.

Lemma main_exits_exactly_on_unusable_input_witness :
  main demo_factors_file
       (Records [["item_description"; "quantity"]; []; []]) true
  = exit_early.
Proof.
  exact (proj1 (main_exits_exactly_on_unusable_input demo_factors_file
                  (Records [["item_description"; "quantity"]; []; []]) true)
           eq_refl).
Defined.
